(** * build_docs.py: a model of the documentation build script

    The script drives two Mercurial clones through a handful of shell
    commands and prunes documentation files by glob patterns.  Its whole
    behaviour is effects on the outside world, so the embedding threads an
    explicit [world] (file system, current directory, the two standard
    streams) through a small exception monad.  External programs are an
    oracle [shell] the definitions are parameterised over.

    Not modelled: file permissions and other I/O errors, the order in
    which the parent's and the child's output interleave, [python -O]
    (which drops the [assert]). *)

From Stdlib Require Import ZArith NArith String Ascii List Bool Lia.
From Stdlib.Strings Require Import Byte.
From stdpp Require Import gmap strings list fin_maps.

Local Open Scope string_scope.
Local Open Scope list_scope.
Local Open Scope Z_scope.

(** ** Text and bytes

    Program text ([str] values built by the script: commands, messages,
    path components) is a Rocq [string].  What a child process writes is
    [bytes]; text decoded from it is a list of Unicode code points. *)

Definition bytes := list byte.
Definition text := list N.

Definition NL : ascii := "010"%char.
Definition TAB : ascii := "009"%char.
Definition CR : ascii := "013"%char.
Definition SQUOTE : ascii := "039"%char.
Definition DQUOTE : ascii := "034"%char.
Definition BACKSLASH : ascii := "092"%char.

Definition chr (c : ascii) : string := String c EmptyString.

Definition string_of_bytes (bs : bytes) : string :=
  string_of_list_ascii (map ascii_of_byte bs).

Definition bytes_of_string (s : string) : bytes :=
  map byte_of_ascii (list_ascii_of_string s).

Definition hex_digit (n : N) : ascii :=
  match n with
  | 0%N => "0" | 1%N => "1" | 2%N => "2" | 3%N => "3" | 4%N => "4"
  | 5%N => "5" | 6%N => "6" | 7%N => "7" | 8%N => "8" | 9%N => "9"
  | 10%N => "a" | 11%N => "b" | 12%N => "c" | 13%N => "d" | 14%N => "e"
  | _ => "f"
  end%char.

(** [repr] of one byte inside a Python bytes literal delimited by [quote]. *)
Definition repr_byte (quote : ascii) (b : byte) : string :=
  let c := ascii_of_byte b in
  let n := Byte.to_N b in
  if Ascii.eqb c quote || Ascii.eqb c BACKSLASH then String BACKSLASH (chr c)
  else if Ascii.eqb c TAB then String BACKSLASH "t"
  else if Ascii.eqb c NL then String BACKSLASH "n"
  else if Ascii.eqb c CR then String BACKSLASH "r"
  else if (n <? 32)%N || (127 <=? n)%N
       then String BACKSLASH (String "x" (String (hex_digit (n / 16)) (chr (hex_digit (n mod 16)))))
  else chr c.

(** Python's [repr(b)] for a bytes object: single quotes unless the value
    holds a single quote and no double quote. *)
Definition bytes_repr (bs : bytes) : string :=
  let cs := map ascii_of_byte bs in
  let quote :=
    if existsb (Ascii.eqb SQUOTE) cs && negb (existsb (Ascii.eqb DQUOTE) cs)
    then DQUOTE else SQUOTE in
  String "b" (String quote
    (String.concat EmptyString (map (repr_byte quote) bs) +:+ chr quote)).

(** ["%s" % x] for the value [communicate] hands back for a stream:
    a bytes object when the stream was piped, [None] otherwise. *)
Definition format_s (x : option bytes) : string :=
  match x with
  | Some bs => bytes_repr bs
  | None => "None"
  end.

(** Strict UTF-8 decoding, [bytes.decode("utf8")]: [None] stands for
    [UnicodeDecodeError]. *)
Definition cont (b : byte) : option N :=
  let n := Byte.to_N b in
  if (128 <=? n)%N && (n <=? 191)%N then Some (n - 128)%N else None.

Definition in_range (lo hi : N) (b : byte) : option N :=
  let n := Byte.to_N b in
  if (lo <=? n)%N && (n <=? hi)%N then Some (n mod 64)%N else None.

Fixpoint decode_utf8 (bs : bytes) : option text :=
  match bs with
  | [] => Some []
  | b0 :: r0 =>
      let n0 := Byte.to_N b0 in
      if (n0 <? 128)%N then cons n0 <$> decode_utf8 r0
      else if (194 <=? n0)%N && (n0 <=? 223)%N then
        match r0 with
        | b1 :: r1 =>
            match cont b1 with
            | Some c1 => cons ((n0 - 192) * 64 + c1)%N <$> decode_utf8 r1
            | None => None
            end
        | _ => None
        end
      else if (224 <=? n0)%N && (n0 <=? 239)%N then
        match r0 with
        | b1 :: b2 :: r2 =>
            let lo := if (n0 =? 224)%N then 160%N else 128%N in
            let hi := if (n0 =? 237)%N then 159%N else 191%N in
            match in_range lo hi b1, cont b2 with
            | Some c1, Some c2 =>
                cons (((n0 - 224) * 64 + c1) * 64 + c2)%N <$> decode_utf8 r2
            | _, _ => None
            end
        | _ => None
        end
      else if (240 <=? n0)%N && (n0 <=? 244)%N then
        match r0 with
        | b1 :: b2 :: b3 :: r3 =>
            let lo := if (n0 =? 240)%N then 144%N else 128%N in
            let hi := if (n0 =? 244)%N then 143%N else 191%N in
            match in_range lo hi b1, cont b2, cont b3 with
            | Some c1, Some c2, Some c3 =>
                cons ((((n0 - 240) * 64 + c1) * 64 + c2) * 64 + c3)%N
                  <$> decode_utf8 r3
            | _, _, _ => None
            end
        | _ => None
        end
      else None
  end.

(** ** Paths ([pathlib.PurePosixPath])

    A path is its list of components and whether it starts at the root.
    Components are opaque names: the model gives no meaning to [.] or
    [..], which the script never writes. *)

Record pypath := Path { anchored : bool; parts : list string }.

#[global] Instance pypath_eq_dec : EqDecision pypath.
Proof. solve_decision. Defined.

Fixpoint split_on (sep : ascii) (s : string) : list string :=
  match s with
  | EmptyString => [EmptyString]
  | String c s' =>
      if Ascii.eqb c sep then EmptyString :: split_on sep s'
      else match split_on sep s' with
           | [] => [chr c]
           | x :: xs => String c x :: xs
           end
  end.

Definition is_component (s : string) : bool :=
  negb (String.eqb s EmptyString) && negb (String.eqb s ".").

(** [pathlib.Path(s)] *)
Definition parse_path (s : string) : pypath :=
  Path (String.prefix "/" s) (filter (fun x => is_component x = true) (split_on "/" s)).

(** [p / q] *)
Definition joinpath (p q : pypath) : pypath :=
  if anchored q then q else Path (anchored p) (parts p ++ parts q).

Notation "p // s" := (joinpath p (parse_path s)) (at level 40, left associativity).

(** [str(p)] *)
Definition str (p : pypath) : string :=
  if anchored p then "/" +:+ String.concat "/" (parts p)
  else match parts p with
       | [] => "."
       | _ => String.concat "/" (parts p)
       end.

(** [p.expanduser()], given the home directory. *)
Definition expanduser (home : list string) (p : pypath) : pypath :=
  match anchored p, parts p with
  | false, c :: rest => if String.eqb c "~" then Path true (home ++ rest) else p
  | _, _ => p
  end.

(** ** The file system

    A finite map from canonical absolute locations (lists of names below
    the root, no symbolic link among them) to what is stored there.  The
    root [[]] is a directory that needs no entry. *)

Inductive inode :=
  | IFile (data : string)
  | IDir
  | ILink (target : pypath).

#[global] Instance inode_eq_dec : EqDecision inode.
Proof. solve_decision. Defined.

Definition node_at (fs : gmap (list string) inode) (k : list string) : option inode :=
  match k with
  | [] => Some IDir
  | _ => fs !! k
  end.

Definition is_dir_at (fs : gmap (list string) inode) (k : list string) : bool :=
  match node_at fs k with
  | Some IDir => true
  | _ => false
  end.

(** The number of symbolic links one path resolution may follow. *)
Definition MAXSYMLINKS : nat := 40.

(** Path resolution as [stat] does it: from the directory [cur], through
    the names [rest], following every symbolic link.  [None] is any of
    ENOENT, ENOTDIR and ELOOP. *)
Fixpoint walk (fuel : nat) (fs : gmap (list string) inode)
    : list string -> list string -> option (list string) :=
  fix go (cur rest : list string) {struct rest} : option (list string) :=
    match rest with
    | [] => Some cur
    | c :: rest' =>
        match fs !! (cur ++ [c]) with
        | None => None
        | Some IDir => go (cur ++ [c]) rest'
        | Some (IFile _) =>
            match rest' with
            | [] => Some (cur ++ [c])
            | _ :: _ => None
            end
        | Some (ILink t) =>
            match fuel with
            | O => None
            | S f => walk f fs (if anchored t then [] else cur) (parts t ++ rest')
            end
        end
    end.

Definition start_of (cwd : list string) (p : pypath) : list string :=
  if anchored p then [] else cwd.

(** Where [p] leads, following links ([os.stat]). *)
Definition stat_key (fs : gmap (list string) inode) (cwd : list string) (p : pypath)
    : option (list string) :=
  walk MAXSYMLINKS fs (start_of cwd p) (parts p).

Definition stat (fs : gmap (list string) inode) (cwd : list string) (p : pypath)
    : option inode :=
  stat_key fs cwd p ≫= node_at fs.

Fixpoint unsnoc {A} (l : list A) : option (list A * A) :=
  match l with
  | [] => None
  | x :: l' =>
      match unsnoc l' with
      | None => Some ([], x)
      | Some (ini, y) => Some (x :: ini, y)
      end
  end.

(** The directory entry [p] names ([os.lstat]): the parent is resolved,
    the last name is not followed. *)
Definition lstat_key (fs : gmap (list string) inode) (cwd : list string) (p : pypath)
    : option (list string) :=
  match unsnoc (parts p) with
  | None => None
  | Some (ini, name) =>
      match walk MAXSYMLINKS fs (start_of cwd p) ini with
      | Some d => if is_dir_at fs d then Some (d ++ [name]) else None
      | None => None
      end
  end.

Definition lstat (fs : gmap (list string) inode) (cwd : list string) (p : pypath)
    : option inode :=
  lstat_key fs cwd p ≫= (fun k => fs !! k).

(** Everything stored at [k] or below it. *)
Definition below (k : list string) (fs : gmap (list string) inode)
    : gmap (list string) inode :=
  filter (fun kv => k `prefix_of` kv.1) fs.

Definition not_below (k : list string) (fs : gmap (list string) inode)
    : gmap (list string) inode :=
  filter (fun kv => ¬ k `prefix_of` kv.1) fs.

Definition rebase (src dst k : list string) : list string :=
  dst ++ drop (length src) k.

(** The subtree at [src] re-rooted at [dst]. *)
Definition move_tree (src dst : list string) (fs : gmap (list string) inode)
    : gmap (list string) inode :=
  list_to_map (map (fun kv => (rebase src dst kv.1, kv.2)) (map_to_list (below src fs)))
    ∪ not_below dst (not_below src fs).

(** ** The world and the effect monad *)

Record world := World {
  w_fs : gmap (list string) inode;
  w_cwd : list string;
  w_stdout : string;
  w_stderr : string
}.

Inductive exn :=
  | SystemExit (code : Z)
  | AssertionError
  | FileNotFoundError
  | FileExistsError
  | NotADirectoryError
  | IsADirectoryError
  | OSError
  | UnicodeDecodeError.

Inductive outcome (A : Type) :=
  | Ok (a : A) (w : world)
  | Raise (e : exn) (w : world).
Arguments Ok {A} a w.
Arguments Raise {A} e w.

Definition M (A : Type) : Type := world -> outcome A.

Definition ret {A} (a : A) : M A := fun w => Ok a w.

Definition bind {A B} (m : M A) (k : A -> M B) : M B :=
  fun w =>
    match m w with
    | Ok a w' => k a w'
    | Raise e w' => Raise e w'
    end.

Definition raise {A} (e : exn) : M A := fun w => Raise e w.

(** [try: body finally: cleanup].  An exception of the cleanup replaces
    the one in flight. *)
Definition try_finally {A} (body : M A) (cleanup : M unit) : M A :=
  fun w =>
    match body w with
    | Ok a w1 =>
        match cleanup w1 with
        | Ok _ w2 => Ok a w2
        | Raise e w2 => Raise e w2
        end
    | Raise e w1 =>
        match cleanup w1 with
        | Ok _ w2 => Raise e w2
        | Raise e' w2 => Raise e' w2
        end
    end.

Declare Scope M_scope.
Delimit Scope M_scope with M.
Notation "x <- y ; z" := (bind y (fun x => z))
  (at level 20, y at level 100, z at level 200, only parsing) : M_scope.
Notation "' x <- y ; z" := (bind y (fun x => z))
  (at level 20, x pattern, y at level 100, z at level 200, only parsing) : M_scope.
Notation "x ;; z" := (bind x (fun _ => z))
  (at level 100, z at level 200, only parsing, right associativity) : M_scope.
Local Open Scope M_scope.

Fixpoint for_each {A} (l : list A) (body : A -> M unit) : M unit :=
  match l with
  | [] => ret tt
  | x :: l' => body x ;; for_each l' body
  end.

Definition returned {A} (o : outcome A) : bool :=
  match o with
  | Ok _ _ => true
  | Raise _ _ => false
  end.

Definition world_of {A} (o : outcome A) : world :=
  match o with
  | Ok _ w => w
  | Raise _ w => w
  end.


Definition set_fs (fs : gmap (list string) inode) (w : world) : world :=
  World fs (w_cwd w) (w_stdout w) (w_stderr w).

Definition set_cwd (d : list string) (w : world) : world :=
  World (w_fs w) d (w_stdout w) (w_stderr w).

(** ** Operating-system calls the script makes *)

(** [os.getcwd()] *)
Definition getcwd : M pypath := fun w => Ok (Path true (w_cwd w)) w.

(** [os.chdir(p)] *)
Definition chdir (p : pypath) : M unit := fun w =>
  match stat_key (w_fs w) (w_cwd w) p with
  | Some k =>
      if is_dir_at (w_fs w) k then Ok tt (set_cwd k w)
      else Raise NotADirectoryError w
  | None => Raise FileNotFoundError w
  end.

(** [p.exists()] *)
Definition path_exists (p : pypath) : M bool := fun w =>
  Ok (match stat (w_fs w) (w_cwd w) p with Some _ => true | None => false end) w.

(** [p.is_dir()] *)
Definition is_dir (p : pypath) : M bool := fun w =>
  Ok (match stat (w_fs w) (w_cwd w) p with Some IDir => true | _ => false end) w.

(** [p.absolute()] *)
Definition absolute (p : pypath) : M pypath := fun w =>
  Ok (if anchored p then p else Path true (w_cwd w ++ parts p)) w.

(** [p.unlink()] *)
Definition unlink (p : pypath) : M unit := fun w =>
  match lstat_key (w_fs w) (w_cwd w) p with
  | None => Raise FileNotFoundError w
  | Some k =>
      match w_fs w !! k with
      | None => Raise FileNotFoundError w
      | Some IDir => Raise IsADirectoryError w
      | Some _ => Ok tt (set_fs (delete k (w_fs w)) w)
      end
  end.

(** [link.symlink_to(target)] *)
Definition symlink_to (link target : pypath) : M unit := fun w =>
  match lstat_key (w_fs w) (w_cwd w) link with
  | None => Raise FileNotFoundError w
  | Some k =>
      match w_fs w !! k with
      | Some _ => Raise FileExistsError w
      | None => Ok tt (set_fs (<[k := ILink target]> (w_fs w)) w)
      end
  end.

(** [src.rename(dst)], as rename(2): a file or link replaces a file or
    link; a directory moves with everything below it, onto nothing or
    onto an empty directory. *)
Definition rename (src dst : pypath) : M unit := fun w =>
  let fs := w_fs w in
  match lstat_key fs (w_cwd w) src, lstat_key fs (w_cwd w) dst with
  | Some ks, Some kd =>
      match fs !! ks with
      | None => Raise FileNotFoundError w
      | Some IDir =>
          if bool_decide (ks = kd) then Ok tt w
          else if bool_decide (ks `prefix_of` kd) then Raise OSError w
          else match fs !! kd with
               | Some IDir =>
                   if bool_decide (below kd fs = {[ kd := IDir ]})
                   then Ok tt (set_fs (move_tree ks kd fs) w)
                   else Raise OSError w
               | Some _ => Raise NotADirectoryError w
               | None => Ok tt (set_fs (move_tree ks kd fs) w)
               end
      | Some node =>
          if bool_decide (ks = kd) then Ok tt w
          else match fs !! kd with
               | Some IDir => Raise IsADirectoryError w
               | _ => Ok tt (set_fs (<[kd := node]> (delete ks fs)) w)
               end
      end
  | _, _ => Raise FileNotFoundError w
  end.

(** [shutil.rmtree(p)]: refuses a symbolic link and anything that is not
    a directory. *)
Definition rmtree (p : pypath) : M unit := fun w =>
  match lstat_key (w_fs w) (w_cwd w) p with
  | None => Raise FileNotFoundError w
  | Some k =>
      match w_fs w !! k with
      | None => Raise FileNotFoundError w
      | Some (ILink _) => Raise OSError w
      | Some (IFile _) => Raise NotADirectoryError w
      | Some IDir => Ok tt (set_fs (not_below k (w_fs w)) w)
      end
  end.

(** [print(s)] *)
Definition print (s : string) : M unit := fun w =>
  Ok tt (World (w_fs w) (w_cwd w) (w_stdout w +:+ s +:+ chr NL) (w_stderr w)).

(** [sys.stderr.writelines(s)] with [s] a string: its characters, one
    after the other. *)
Definition stderr_writelines (s : string) : M unit := fun w =>
  Ok tt (World (w_fs w) (w_cwd w) (w_stdout w) (w_stderr w +:+ s)).

(** [sub in s] *)
Definition str_contains (sub s : string) : bool :=
  match String.index 0 sub s with
  | Some _ => true
  | None => false
  end.

(** [sys.exit(code)] *)
Definition sys_exit {A} (code : Z) : M A := raise (SystemExit code).

(** [assert b] *)
Definition py_assert (b : bool) : M unit :=
  if b then ret tt else raise AssertionError.

(** ** [fnmatch]

    Shell-style wildcards: [*], [?], [[seq]] and [[!seq]], everything
    else literal; the whole name must match.  On POSIX [normcase] is the
    identity, so matching is case-sensitive. *)

Inductive cls_item :=
  | CChar (c : ascii)
  | CRange (lo hi : ascii).

Inductive token :=
  | TStar
  | TAny
  | TLit (c : ascii)
  | TClass (negated : bool) (items : list cls_item).

Fixpoint span_until (stop : ascii) (s : list ascii) : option (list ascii * list ascii) :=
  match s with
  | [] => None
  | c :: s' =>
      if Ascii.eqb c stop then Some ([], s')
      else match span_until stop s' with
           | Some (pre, rest) => Some (c :: pre, rest)
           | None => None
           end
  end.

(** What follows a [[]: the set's text up to its closing bracket (one
    directly after [[] or [[!] does not close), and what comes after. *)
Definition bracket (s : list ascii) : option (bool * list ascii * list ascii) :=
  let '(neg, s1) :=
    match s with
    | c :: s' => if Ascii.eqb c "!" then (true, s') else (false, s)
    | [] => (false, s)
    end in
  let '(first, s2) :=
    match s1 with
    | c :: s' => if Ascii.eqb c "]" then ([c], s') else ([], s1)
    | [] => ([], s1)
    end in
  match span_until "]" s2 with
  | Some (mid, rest) => Some (neg, first ++ mid, rest)
  | None => None
  end.

Fixpoint cls_items (s : list ascii) : list cls_item :=
  match s with
  | [] => []
  | lo :: s1 =>
      match s1 with
      | dash :: hi :: s2 =>
          if Ascii.eqb dash "-" then CRange lo hi :: cls_items s2
          else CChar lo :: cls_items s1
      | _ => CChar lo :: cls_items s1
      end
  end.

Fixpoint tokens (fuel : nat) (pat : list ascii) : list token :=
  match fuel, pat with
  | O, _ => []
  | _, [] => []
  | S f, c :: pat' =>
      if Ascii.eqb c "*" then TStar :: tokens f pat'
      else if Ascii.eqb c "?" then TAny :: tokens f pat'
      else if Ascii.eqb c "[" then
        match bracket pat' with
        | Some (neg, stuff, rest) => TClass neg (cls_items stuff) :: tokens f rest
        | None => TLit c :: tokens f pat'
        end
      else TLit c :: tokens f pat'
  end.

Definition cls_match (c : ascii) (it : cls_item) : bool :=
  match it with
  | CChar d => Ascii.eqb c d
  | CRange lo hi => (N_of_ascii lo <=? N_of_ascii c)%N && (N_of_ascii c <=? N_of_ascii hi)%N
  end.

Fixpoint match_tokens (ts : list token) : list ascii -> bool :=
  match ts with
  | [] => fun s => match s with [] => true | _ :: _ => false end
  | TStar :: ts' =>
      fix star (s : list ascii) : bool :=
        match_tokens ts' s ||
        match s with
        | [] => false
        | _ :: s' => star s'
        end
  | TAny :: ts' =>
      fun s => match s with [] => false | _ :: s' => match_tokens ts' s' end
  | TLit c :: ts' =>
      fun s => match s with [] => false | d :: s' => Ascii.eqb c d && match_tokens ts' s' end
  | TClass neg items :: ts' =>
      fun s =>
        match s with
        | [] => false
        | d :: s' => xorb neg (existsb (cls_match d) items) && match_tokens ts' s'
        end
  end.

Definition fnmatch (name pat : string) : bool :=
  let p := list_ascii_of_string pat in
  match_tokens (tokens (length p) p) (list_ascii_of_string name).

(** ** [Path.glob("**/" + namepat)]

    Every entry below the root that is reached through real directories
    only (the recursive wildcard does not enter a symbolic link) and whose
    own name matches [namepat].  The root itself is not among them.  The
    order is the map's.  pathlib yields the paths one by one while the
    caller's loop runs; the loops of this script unlink only the path
    just yielded, never a directory, so the paths still to come are
    those of the tree as it was, and the list can be taken up front. *)

Fixpoint real_dirs (fs : gmap (list string) inode) (R rel : list string) : bool :=
  match rel with
  | [] => false
  | d :: rel' =>
      match rel' with
      | [] => true
      | _ :: _ =>
          match fs !! (R ++ [d]) with
          | Some IDir => real_dirs fs (R ++ [d]) rel'
          | _ => false
          end
      end
  end.

Definition strip_prefix (R k : list string) : option (list string) :=
  if bool_decide (R `prefix_of` k) then Some (drop (length R) k) else None.

Definition name_matches (namepat : string) (rel : list string) : bool :=
  match unsnoc rel with
  | Some (_, name) => fnmatch name namepat
  | None => false
  end.

Definition glob_rels (fs : gmap (list string) inode) (R : list string) (namepat : string)
    : list (list string) :=
  omap (fun kv =>
          match strip_prefix R kv.1 with
          | Some rel => if real_dirs fs R rel && name_matches namepat rel then Some rel else None
          | None => None
          end)
       (map_to_list fs).

(** The path object for what lies [rel] below [root]. *)
Definition descend (root : pypath) (rel : list string) : pypath :=
  Path (anchored root) (parts root ++ rel).

Definition glob (root : pypath) (namepat : string) : M (list pypath) := fun w =>
  match stat_key (w_fs w) (w_cwd w) root with
  | Some R =>
      if is_dir_at (w_fs w) R
      then Ok (map (descend root) (glob_rels (w_fs w) R namepat)) w
      else Ok [] w
  | None => Ok [] w
  end.

(** ** Vocabulary for the statements below *)

(** The directory entry a path names in a world, links not followed. *)
Definition entry (w : world) (p : pypath) : option inode :=
  lstat (w_fs w) (w_cwd w) p.

(** What [p.is_dir()] answers in a world. *)
Definition is_directory (w : world) (p : pypath) : bool :=
  match stat (w_fs w) (w_cwd w) p with
  | Some IDir => true
  | _ => false
  end.

(** The paths [root.glob("**/" + namepat)] yields in a world. *)
Definition visited (root : pypath) (namepat : string) (w : world) : list pypath :=
  match glob root namepat w with
  | Ok ps _ => ps
  | Raise _ _ => []
  end.

Definition is_link (o : option inode) : bool :=
  match o with
  | Some (ILink _) => true
  | _ => false
  end.

(** ** Child processes

    What running a command line through the shell does is not the
    script's business: an oracle maps the command, the directory it runs
    in and the file system it sees to the child's exit status, what it
    wrote, and the file system it leaves. *)

Record proc := Proc {
  returncode : Z;
  out_bytes : bytes;
  err_bytes : bytes;
  fs_after : gmap (list string) inode
}.

(** The values of [Popen]'s [stdout=] and [stderr=]: [subprocess.PIPE],
    [None] (the parent's stream is inherited), [subprocess.DEVNULL] and
    [subprocess.STDOUT]. *)
Inductive stream := PIPE | Inherited | DEVNULL | STDOUT.

(** The parent's standard output and standard error once a child that
    inherited them has run. *)
Definition stdout_after (stdout stderr : stream) (p : proc) (s : string) : string :=
  match stdout, stderr with
  | Inherited, STDOUT => s +:+ string_of_bytes (out_bytes p) +:+ string_of_bytes (err_bytes p)
  | Inherited, _ => s +:+ string_of_bytes (out_bytes p)
  | _, _ => s
  end.

Definition stderr_after (stderr : stream) (p : proc) (s : string) : string :=
  match stderr with
  | Inherited => s +:+ string_of_bytes (err_bytes p)
  | _ => s
  end.

Section Script.

Variable shell : string -> list string -> gmap (list string) inode -> proc.
Variable HOME : list string.

(** [proc = subprocess.Popen(cmnd, shell=True, stdout=.., stderr=..)]
    followed by [proc.communicate()]: the return code and the two
    captured streams, each [None] unless it was piped.  What is not
    captured lands on the parent's own streams. *)
Definition popen_communicate (cmnd : string) (stdout stderr : stream)
    : M (Z * option bytes * option bytes) := fun w =>
  let p := shell cmnd (w_cwd w) (w_fs w) in
  let out :=
    match stdout with
    | PIPE =>
        Some (out_bytes p ++ match stderr with STDOUT => err_bytes p | _ => [] end)
    | _ => None
    end in
  let err := match stderr with PIPE => Some (err_bytes p) | _ => None end in
  Ok (returncode p, out, err)
     (World (fs_after p) (w_cwd w)
        (stdout_after stdout stderr p (w_stdout w))
        (stderr_after stderr p (w_stderr w))).

(** ** The script, function by function *)

Definition WEB_REPO : pypath := expanduser HOME (parse_path "~/repos/cogent3org").
Definition SRC_REPO : pypath := expanduser HOME (parse_path "~/repos/Cogent3").

Definition WEB_DIR : pypath := parse_path "c3org".
Definition SRC_DIR : pypath := parse_path "c3src".

(** [@contextmanager def cwd(path)], applied to the body of the [with]. *)
Definition cwd {A} (path : pypath) (body : M A) : M A :=
  oldpwd <- getcwd;
  chdir path;;
  try_finally body (chdir oldpwd).

(** [exec_command(cmnd, stdout=PIPE, stderr=PIPE)].  [Popen] is given
    [stderr] only: the [stdout] parameter is never passed on, so the
    child's standard output is always inherited. *)
Definition exec_command (cmnd : string) (stdout stderr : stream) : M (option text) :=
  '(rc, out, err) <- popen_communicate cmnd Inherited stderr;
  (if negb (rc =? 0) then
     let msg := err in
     stderr_writelines ("FAILED: " +:+ cmnd +:+ chr NL +:+ format_s msg);;
     sys_exit rc
   else ret tt);;
  match out with
  | Some o =>
      match decode_utf8 o with
      | Some r => ret (Some r)
      | None => raise UnicodeDecodeError
      end
  | None => ret None
  end.

Definition remove_old_repos : M unit :=
  for_each [WEB_DIR; SRC_DIR] (fun p =>
    e <- path_exists p;
    if e then rmtree p else ret tt).

Definition bookmark_org_repo : M unit :=
  cwd WEB_REPO (
    r <- exec_command "hg bookmark develop -f" PIPE PIPE;
    ret tt).

Definition clone_repos : M unit :=
  bookmark_org_repo;;
  r <- exec_command ("hg clone " +:+ str SRC_REPO +:+ " " +:+ str SRC_DIR) PIPE PIPE;
  r <- exec_command ("hg clone " +:+ str WEB_REPO +:+ " " +:+ str WEB_DIR) PIPE PIPE;
  dest_docs <- absolute (WEB_DIR // "doc" // "doc");
  src_docs <- absolute (SRC_DIR // "doc");
  e <- path_exists src_docs;
  py_assert e;;
  symlink_to dest_docs src_docs;;
  dest_script <- absolute (WEB_DIR // "doc" // "set_working_directory.py");
  src_script <- absolute (SRC_DIR // "doc" // "set_working_directory.py");
  rename src_script dest_script;;
  dest_bib <- absolute (WEB_DIR // "doc" // "cogent3.bib");
  src_bib <- absolute (SRC_DIR // "doc" // "cogent3.bib");
  rename src_bib dest_bib.

(** [clone_repos] in two halves, to speak of the state between them:
    the three commands it starts with, *)
Definition clone_commands : M unit :=
  bookmark_org_repo;;
  r <- exec_command ("hg clone " +:+ str SRC_REPO +:+ " " +:+ str SRC_DIR) PIPE PIPE;
  r <- exec_command ("hg clone " +:+ str WEB_REPO +:+ " " +:+ str WEB_DIR) PIPE PIPE;
  ret tt.

(** and what it does once the clones are there. *)
Definition link_and_move : M unit :=
  dest_docs <- absolute (WEB_DIR // "doc" // "doc");
  src_docs <- absolute (SRC_DIR // "doc");
  e <- path_exists src_docs;
  py_assert e;;
  symlink_to dest_docs src_docs;;
  dest_script <- absolute (WEB_DIR // "doc" // "set_working_directory.py");
  src_script <- absolute (SRC_DIR // "doc" // "set_working_directory.py");
  rename src_script dest_script;;
  dest_bib <- absolute (WEB_DIR // "doc" // "cogent3.bib");
  src_bib <- absolute (SRC_DIR // "doc" // "cogent3.bib");
  rename src_bib dest_bib.

Definition path_matches (path : pypath) (patterns : list string) : bool :=
  existsb (fun pattern => fnmatch (str path) pattern) patterns.

Definition reduce_draw_examples : M unit :=
  let patterns := ["*gaps-per-seq*"; "*-square.py"; "*README*"] in
  let draw_root := WEB_DIR // "doc/doc/draw_examples" in
  paths <- glob draw_root "*";
  for_each paths (fun path =>
    let match_ := path_matches path patterns in
    d <- is_dir path;
    if match_ || d then ret tt
    else unlink path).

Definition remove_docs (pattern : string) : M unit :=
  let doc_root := WEB_DIR // "doc/doc" in
  let patterns := [pattern; "*index.rst"; "*template*"; "*draw_exa*"] in
  paths <- glob doc_root "*.rst";
  for_each paths (fun path =>
    let match_ := path_matches path patterns in
    d <- is_dir path;
    if match_ || d then ret tt
    else
      (if str_contains "template" (str path) then print (str path) else ret tt);;
      unlink path).

Definition build_docs : M unit :=
  chdir WEB_DIR;;
  exec_command "hg up develop" PIPE PIPE;;
  exec_command "ls" PIPE PIPE;;
  chdir (parse_path "doc");;
  exec_command "make github" PIPE PIPE;;
  ret tt.

Definition build_all : M unit :=
  remove_old_repos;;
  clone_repos;;
  build_docs.

(** The body of the [build-just] command; [pattern] is [None] when the
    option is not given.  An empty pattern is as false as none. *)
Definition build_just (pattern : option string) (simplify_draw : bool) : M unit :=
  remove_old_repos;;
  clone_repos;;
  (if simplify_draw then reduce_draw_examples else ret tt);;
  match pattern with
  | Some p => if String.eqb p EmptyString then ret tt else remove_docs p
  | None => ret tt
  end;;
  build_docs.

End Script.

(** ** The command line ([click])

    [build_just] is registered with [no_args_is_help=True]: called with
    no arguments at all, click shows the command's help and exits
    without calling the function.  How it exits is click's choice and
    changed with release 8.2: before, the help goes to standard output
    and the exit code is 0 ([ctx.exit()]); since, it goes to standard
    error and the exit code is 2 ([NoArgsIsHelpError]).  Parsing of a
    non-empty argument list is click's too and stays a parameter. *)




Section FrontEnd.

Variable shell : string -> list string -> gmap (list string) inode -> proc.
Variable HOME : list string.
Variable parse_options : list string -> option (option string * bool).
Variable help : string.
Variable usage_error : string.


End FrontEnd.

(** ** What a file filter achieves *)

(** Every entry the walk visits is a regular file or a directory. *)
Definition plain_tree (root : pypath) (namepat : string) (w : world) : Prop :=
  forall p, p ∈ visited root namepat w -> is_link (entry w p) = false.

(** What a file filter [run] over the walk [root.glob("**/" + namepat)]
    with the keep-patterns [keepers] does to a world: it returns; of the
    visited entries exactly those that match no keep-pattern and are no
    directory are gone, the others are as they were; and nothing that
    was not visited has changed. *)
Definition pruned_by (run : M unit) (root : pypath) (namepat : string)
    (keepers : list string) (w : world) : Prop :=
  exists w',
    run w = Ok tt w'
    /\ w_cwd w' = w_cwd w
    /\ (forall p, p ∈ visited root namepat w ->
          entry w p <> None
          /\ (entry w' p = None <->
                path_matches p keepers = false /\ is_directory w p = false)
          /\ (entry w' p <> None -> entry w' p = entry w p))
    /\ (forall k,
          (forall p, p ∈ visited root namepat w ->
                     lstat_key (w_fs w) (w_cwd w) p <> Some k) ->
          w_fs w' !! k = w_fs w !! k)
    /\ (forall k, w_fs w !! k = Some IDir -> w_fs w' !! k = Some IDir).

(** ** A small world to run the script in

    A shell that knows the few commands the examples below use: [echo],
    a command that fails, and the two clones, which lay out the files the
    script expects. *)

Definition demo_home : list string := ["home"; "u"].

Definition demo_src_clone (cwd : list string) : list (list string * inode) :=
  [ (cwd ++ ["c3src"], IDir);
    (cwd ++ ["c3src"; "doc"], IDir);
    (cwd ++ ["c3src"; "doc"; "set_working_directory.py"], IFile "import os");
    (cwd ++ ["c3src"; "doc"; "cogent3.bib"], IFile "@article");
    (cwd ++ ["c3src"; "doc"; "index.rst"], IFile "Welcome") ].

Definition demo_web_clone (cwd : list string) : list (list string * inode) :=
  [ (cwd ++ ["c3org"], IDir);
    (cwd ++ ["c3org"; "doc"], IDir);
    (cwd ++ ["c3org"; "doc"; "conf.py"], IFile "project") ].

Definition demo_shell (cmnd : string) (cwd : list string)
    (fs : gmap (list string) inode) : proc :=
  if String.eqb cmnd "echo hi"
  then Proc 0 (bytes_of_string ("hi" +:+ chr NL)) [] fs
  else if String.eqb cmnd "hg id"
  then Proc 255 [] (bytes_of_string ("abort: no repository found" +:+ chr NL)) fs
  else if String.eqb cmnd "hg clone /home/u/repos/Cogent3 c3src"
  then Proc 0 [] [] (list_to_map (demo_src_clone cwd) ∪ fs)
  else if String.eqb cmnd "hg clone /home/u/repos/cogent3org c3org"
  then Proc 0 [] [] (list_to_map (demo_web_clone cwd) ∪ fs)
  else Proc 0 [] [] fs.

(** A work directory [/w] beside the two canonical repositories. *)
Definition demo_fs : gmap (list string) inode :=
  list_to_map
    [ (["w"], IDir);
      (["home"], IDir);
      (["home"; "u"], IDir);
      (["home"; "u"; "repos"], IDir);
      (["home"; "u"; "repos"; "cogent3org"], IDir);
      (["home"; "u"; "repos"; "Cogent3"], IDir) ].

Definition demo_world : world := World demo_fs ["w"] EmptyString EmptyString.

(** The checkout the scenarios run in: below the work directory [/w]
    the site clone, whose [doc/doc] is a link to the source clone's
    [doc], and there four documents, a text file, and the drawing
    examples. *)
Definition scenario_fs : gmap (list string) inode :=
  list_to_map
    [ (["w"], IDir);
      (["w"; "c3org"], IDir);
      (["w"; "c3org"; "doc"], IDir);
      (["w"; "c3org"; "doc"; "doc"], ILink (Path true ["w"; "c3src"; "doc"]));
      (["w"; "c3src"], IDir);
      (["w"; "c3src"; "doc"], IDir);
      (["w"; "c3src"; "doc"; "intro_index.rst"], IFile "index");
      (["w"; "c3src"; "doc"; "tutorial_basic.rst"], IFile "tutorial");
      (["w"; "c3src"; "doc"; "advanced.rst"], IFile "advanced");
      (["w"; "c3src"; "doc"; "template_foo.rst"], IFile "template");
      (["w"; "c3src"; "doc"; "notes.txt"], IFile "notes");
      (["w"; "c3src"; "doc"; "draw_examples"], IDir);
      (["w"; "c3src"; "doc"; "draw_examples"; "plot-square.py"], IFile "square");
      (["w"; "c3src"; "doc"; "draw_examples"; "scatter.py"], IFile "scatter");
      (["w"; "c3src"; "doc"; "draw_examples"; "README.rst"], IFile "readme");
      (["w"; "c3src"; "doc"; "draw_examples"; "gaps-per-seq-1.png"], IFile "png") ].

Definition scenario_world : world := World scenario_fs ["w"] EmptyString EmptyString.

(** The directory [d] is there, plainly: from the root, every name on
    the way to it is a real directory, no link among them. *)
Definition reachable (fs : gmap (list string) inode) (d : list string) : bool :=
  match walk 0 fs [] d with
  | Some k => bool_decide (k = d) && is_dir_at fs k
  | None => false
  end.

(** The two clones lie in the directory [C] as plain directories, each
    with a plain [doc] directory. *)
Definition clones_in_place (fs : gmap (list string) inode) (C : list string) : Prop :=
  reachable fs C = true
  /\ fs !! (C ++ ["c3org"]) = Some IDir
  /\ fs !! (C ++ ["c3org"; "doc"]) = Some IDir
  /\ fs !! (C ++ ["c3src"]) = Some IDir
  /\ fs !! (C ++ ["c3src"; "doc"]) = Some IDir.

(** [plain_tree], as a check that can be run. *)
Definition plain_tree_check (root : pypath) (namepat : string) (w : world) : bool :=
  forallb (fun p => negb (is_link (entry w p))) (visited root namepat w).

(** ** Relations between file systems, for the proofs *)

(** Nothing, or a regular file. *)
Definition plain_file (o : option inode) : Prop :=
  o = None \/ exists d, o = Some (IFile d).

(** [fs] and [fs0] differ in regular files only: where they differ, each
    has a regular file or nothing. *)
Definition files_differ (fs fs0 : gmap (list string) inode) : Prop :=
  forall k, fs !! k = fs0 !! k \/ (plain_file (fs !! k) /\ plain_file (fs0 !! k)).

(** [fs] is [fs0] with some regular files taken away. *)
Definition files_removed (fs fs0 : gmap (list string) inode) : Prop :=
  forall k, fs !! k = fs0 !! k \/ (fs !! k = None /\ exists d, fs0 !! k = Some (IFile d)).


(** The directory a path leads to, if it leads to one. *)
Definition walk_dir (n : nat) (fs : gmap (list string) inode) (cur rest : list string)
    : option (list string) :=
  match walk n fs cur rest with
  | Some d => if is_dir_at fs d then Some d else None
  | None => None
  end.

(** A chain of real directories below [R]. *)
Fixpoint dirs_chain (fs : gmap (list string) inode) (R b : list string) : Prop :=
  match b with
  | [] => True
  | d :: b' => fs !! (R ++ [d]) = Some IDir /\ dirs_chain fs (R ++ [d]) b'
  end.

(** A visited entry that is a regular file or a directory, below real
    directories. *)
Definition plain_entry (fs0 : gmap (list string) inode) (R rel : list string) : Prop :=
  real_dirs fs0 R rel = true
  /\ exists nd, fs0 !! (R ++ rel) = Some nd /\ is_link (Some nd) = false.


(** ** Vocabulary for the properties beyond the specification *)

(** [s.endswith(suf)] *)
Definition str_endswith (suf s : string) : bool :=
  bool_decide (list_ascii_of_string suf `suffix_of` list_ascii_of_string s).

(** The tokens of a pattern text that holds no wildcard. *)
Definition lits (s : string) : list token := map TLit (list_ascii_of_string s).

(** A document, by its name: it ends in [.rst]. *)
Definition doc_name (name : string) : bool := str_endswith ".rst" name.

(** Names the three fixed patterns of [remove_docs] protect. *)
Definition protected_doc (name : string) : bool :=
  str_endswith "index.rst" name || str_contains "template" name
  || str_contains "draw_exa" name.

(** Names the three patterns of [reduce_draw_examples] protect. *)
Definition protected_example (name : string) : bool :=
  str_contains "gaps-per-seq" name || str_endswith "-square.py" name
  || str_contains "README" name.

(** The working directory and the two standard streams are in [w'] what
    they are in [w]. *)
Definition same_process (w w' : world) : Prop :=
  w_cwd w' = w_cwd w /\ w_stdout w' = w_stdout w /\ w_stderr w' = w_stderr w.

(** [fs'] is [fs] without some entries, none of them a directory, each
    at a key that satisfies [Q]; nothing is added and nothing modified. *)
Definition removed_only (Q : list string -> Prop) (fs fs' : gmap (list string) inode)
    : Prop :=
  forall k, fs' !! k = fs !! k
    \/ (fs' !! k = None /\ exists nd, fs !! k = Some nd /\ nd <> IDir /\ Q k).

(** What [remove_old_repos] may change: nothing of the process, and of
    the files only what lies at or below the two clone names in the
    working directory, by taking it away. *)
Definition old_repos_frame (w w' : world) : Prop :=
  same_process w w'
  /\ forall k, w_fs w' !! k = w_fs w !! k
       \/ (w_fs w' !! k = None
           /\ ((w_cwd w ++ ["c3org"]) `prefix_of` k \/ (w_cwd w ++ ["c3src"]) `prefix_of` k)).

(** The world a child process [p] leaves that ran in [w] with its
    standard error piped and exited with status 0. *)
Definition after_piped (p : proc) (w : world) : world :=
  World (fs_after p) (w_cwd w) (w_stdout w +:+ string_of_bytes (out_bytes p)) (w_stderr w).

(** ** More worlds and shells to run the script in *)

(** A shell in which every command succeeds, writes [ok] to its standard
    output and [warning] to its standard error, and leaves the files
    alone. *)
Definition chatty_shell (cmnd : string) (cwd : list string)
    (fs : gmap (list string) inode) : proc :=
  Proc 0 (bytes_of_string "ok") (bytes_of_string "warning") fs.

(** A shell in which the command [bad] fails with status 1 and every
    other command succeeds, none touching the files. *)
Definition failing_shell (bad cmnd : string) (cwd : list string)
    (fs : gmap (list string) inode) : proc :=
  if String.eqb cmnd bad then Proc 1 [] (bytes_of_string "abort") fs
  else Proc 0 [] [] fs.

(** [demo_world] with something called [c3org] in the work directory. *)
Definition stale_world (nd : inode) : world :=
  World (<[["w"; "c3org"] := nd]> demo_fs) ["w"] EmptyString EmptyString.

(** [demo_world] with both clones in place, each with its [doc]
    directory, and [extra] besides. *)
Definition checkout_world (extra : list (list string * inode)) : world :=
  World (list_to_map
           (extra ++ [ (["w"; "c3org"], IDir);
                       (["w"; "c3org"; "doc"], IDir);
                       (["w"; "c3src"], IDir);
                       (["w"; "c3src"; "doc"], IDir) ])
         ∪ demo_fs)
        ["w"] EmptyString EmptyString.

(** * Properties *)

#[global] Arguments walk : simpl never.
#[global] Arguments MAXSYMLINKS : simpl never.

(** ** The command runner *)

Section CommandRunner.

Variable shell : string -> list string -> gmap (list string) inode -> proc.

Lemma popen_communicate_world cmnd so se w :
  w_fs (world_of (popen_communicate shell cmnd so se w))
    = fs_after (shell cmnd (w_cwd w) (w_fs w))
  /\ w_cwd (world_of (popen_communicate shell cmnd so se w)) = w_cwd w.
Proof. split; reflexivity. Qed.

(** The [stdout] argument has no effect whatever. *)
Lemma exec_command_ignores_stdout cmnd so so' se :
  exec_command shell cmnd so se = exec_command shell cmnd so' se.
Proof. reflexivity. Qed.

(** C10: whatever is passed as [stdout], a command that exits with
    status 0 has its standard output left on the parent's stream, not
    captured, and [exec_command] returns [None]. *)
Theorem exec_command_returns_None cmnd stdout stderr w :
  returncode (shell cmnd (w_cwd w) (w_fs w)) = 0 ->
  let p := shell cmnd (w_cwd w) (w_fs w) in
  let w' := world_of (popen_communicate shell cmnd Inherited stderr w) in
  exec_command shell cmnd stdout stderr w = Ok None w'
  /\ w_stdout w' = stdout_after Inherited stderr p (w_stdout w)
  /\ (stderr = PIPE -> w_stdout w' = w_stdout w +:+ string_of_bytes (out_bytes p)).
Proof.
  intros Hrc p w'. split; [|split; [reflexivity|intros ->; reflexivity]].
  subst p w'. unfold exec_command, bind, popen_communicate. cbn beta iota.
  rewrite Hrc. reflexivity.
Qed.


End CommandRunner.

(** C1 (fails on the code): [echo hi] writes [hi] and a newline to its
    standard output and exits with 0, yet [exec_command], called with
    its default stream arguments, returns [None]; the text ends up on the
    script's own standard output. *)
Lemma exec_command_echo_returns_None :
  decode_utf8 (out_bytes (demo_shell "echo hi" ["w"] demo_fs))
    = Some [104%N; 105%N; 10%N]
  /\ returncode (demo_shell "echo hi" ["w"] demo_fs) = 0
  /\ exists w',
       exec_command demo_shell "echo hi" PIPE PIPE demo_world = Ok None w'
       /\ w_stdout w' = "hi" +:+ chr NL.
Proof.
  split; [reflexivity|]. split; [reflexivity|].
  eexists. split; reflexivity.
Qed.

(** [echo hi] exits with 0: [None] comes back, whatever [stdout] is. *)
Lemma exec_command_returns_None_witness :
  exists w',
    exec_command demo_shell "echo hi" DEVNULL PIPE demo_world = Ok None w'.
Proof.
  eexists.
  exact (proj1 (exec_command_returns_None demo_shell "echo hi" DEVNULL PIPE
                  demo_world eq_refl)).
Defined.


(** ** Path resolution *)

Section Resolution.

Implicit Types (fs : gmap (list string) inode) (cur rest k : list string).

Lemma walk_eq n fs cur rest :
  walk n fs cur rest =
  match rest with
  | [] => Some cur
  | c :: rest' =>
      match fs !! (cur ++ [c]) with
      | None => None
      | Some IDir => walk n fs (cur ++ [c]) rest'
      | Some (IFile _) =>
          match rest' with
          | [] => Some (cur ++ [c])
          | _ :: _ => None
          end
      | Some (ILink t) =>
          match n with
          | O => None
          | S f => walk f fs (if anchored t then [] else cur) (parts t ++ rest')
          end
      end
  end.
Proof. destruct n, rest; reflexivity. Qed.

Lemma node_at_snoc fs k c : node_at fs (k ++ [c]) = fs !! (k ++ [c]).
Proof. unfold node_at. destruct (k ++ [c]) eqn:E; [by destruct k|done]. Qed.

Lemma walk_nil n fs cur : walk n fs cur [] = Some cur.
Proof. by rewrite walk_eq. Qed.

(** Resolution only looks entries up: what resolves in a file system
    resolves the same way in any larger one. *)
Lemma walk_mono n fs fs' cur rest k :
  fs ⊆ fs' -> walk n fs cur rest = Some k -> walk n fs' cur rest = Some k.
Proof.
  intros Hsub. revert cur rest.
  induction n as [|n IHn]; intros cur rest; revert cur;
    induction rest as [|c rest IHrest]; intros cur;
    rewrite !(walk_eq _ _ cur); try done.
  - destruct (fs !! (cur ++ [c])) as [nd|] eqn:E; [|done].
    rewrite (lookup_weaken _ _ _ _ E Hsub).
    destruct nd; [done|apply IHrest|done].
  - destruct (fs !! (cur ++ [c])) as [nd|] eqn:E; [|done].
    rewrite (lookup_weaken _ _ _ _ E Hsub).
    destruct nd; [done|apply IHrest|apply IHn].
Qed.

Lemma node_at_mono fs fs' k nd :
  fs ⊆ fs' -> node_at fs k = Some nd -> node_at fs' k = Some nd.
Proof.
  intros Hsub. destruct k; [done|]. simpl. intros E.
  by apply (lookup_weaken _ _ _ _ E Hsub).
Qed.

Lemma stat_mono fs fs' cwd p nd :
  fs ⊆ fs' -> stat fs cwd p = Some nd -> stat fs' cwd p = Some nd.
Proof.
  intros Hsub. unfold stat, stat_key.
  destruct (walk _ fs _ _) as [k|] eqn:E; [|done]. simpl.
  rewrite (walk_mono _ _ _ _ _ _ Hsub E). simpl. by apply node_at_mono.
Qed.

Lemma files_removed_differ fs fs0 : files_removed fs fs0 -> files_differ fs fs0.
Proof.
  intros H k. destruct (H k) as [E|[E [d Ed]]]; [by left|right].
  split; [by left|right; eauto].
Qed.

Lemma files_differ_refl fs : files_differ fs fs.
Proof. intros k. by left. Qed.

Lemma files_differ_trans fs1 fs2 fs3 :
  files_differ fs1 fs2 -> files_differ fs2 fs3 -> files_differ fs1 fs3.
Proof.
  intros H12 H23 k. destruct (H12 k) as [->|[Ha Hb]]; [done|].
  destruct (H23 k) as [E|[Hc Hd]]; right; [by rewrite <- E|done].
Qed.

Lemma files_differ_delete fs k d :
  fs !! k = Some (IFile d) -> files_differ (delete k fs) fs.
Proof.
  intros E k'. destruct (decide (k = k')) as [<-|Hne].
  - right. rewrite lookup_delete_eq, E. split; [by left|right; eauto].
  - left. by apply lookup_delete_ne.
Qed.

Lemma files_differ_insert fs k d :
  plain_file (fs !! k) -> files_differ (<[k := IFile d]> fs) fs.
Proof.
  intros Hp k'. destruct (decide (k = k')) as [<-|Hne].
  - right. rewrite lookup_insert_eq. split; [right; eauto|done].
  - left. by apply lookup_insert_ne.
Qed.

Lemma files_differ_dir fs fs0 k :
  files_differ fs fs0 -> fs0 !! k = Some IDir -> fs !! k = Some IDir.
Proof.
  intros H E. destruct (H k) as [->|[_ [E'|[d E']]]]; congruence.
Qed.

Lemma files_removed_refl fs : files_removed fs fs.
Proof. intros k. by left. Qed.

Lemma files_removed_delete fs fs0 k d :
  files_removed fs fs0 -> fs0 !! k = Some (IFile d) -> files_removed (delete k fs) fs0.
Proof.
  intros H E k'. destruct (decide (k = k')) as [<-|Hne].
  - right. rewrite lookup_delete_eq. eauto.
  - rewrite lookup_delete_ne by done. apply H.
Qed.

Lemma plain_file_is_dir_at fs k c :
  plain_file (fs !! (k ++ [c])) -> is_dir_at fs (k ++ [c]) = false.
Proof.
  unfold is_dir_at. rewrite node_at_snoc. by intros [->|[d ->]].
Qed.

Lemma files_differ_is_dir_at fs fs0 k :
  files_differ fs fs0 -> is_dir_at fs k = is_dir_at fs0 k.
Proof.
  intros H. unfold is_dir_at. destruct k as [|c k]; [done|]. simpl.
  destruct (H (c :: k)) as [->|[[->|[d ->]] [->|[d' ->]]]]; done.
Qed.

Lemma files_removed_is_dir_at fs fs0 k :
  files_removed fs fs0 -> is_dir_at fs k = is_dir_at fs0 k.
Proof. intros H. by apply files_differ_is_dir_at, files_removed_differ. Qed.

(** Changing regular files changes no resolution that ends in a
    directory. *)
Lemma walk_dir_files_differ n fs fs0 cur rest :
  files_differ fs fs0 -> walk_dir n fs cur rest = walk_dir n fs0 cur rest.
Proof.
  intros H. unfold walk_dir. revert cur rest.
  assert (Hplain : forall m cur c rest,
            plain_file (fs !! (cur ++ [c])) -> plain_file (fs0 !! (cur ++ [c])) ->
            match walk m fs cur (c :: rest) with
            | Some d => if is_dir_at fs d then Some d else None
            | None => None
            end =
            match walk m fs0 cur (c :: rest) with
            | Some d => if is_dir_at fs0 d then Some d else None
            | None => None
            end).
  { intros m cur c rest Hp Hp0. rewrite !(walk_eq _ _ cur).
    pose proof (plain_file_is_dir_at _ _ _ Hp) as Hd.
    pose proof (plain_file_is_dir_at _ _ _ Hp0) as Hd0.
    destruct Hp as [->|[d ->]], Hp0 as [->|[d0 ->]]; destruct rest;
      by rewrite ?Hd, ?Hd0. }
  induction n as [|n IHn]; intros cur rest; revert cur;
    induction rest as [|c rest IHrest]; intros cur.
  1,3: by rewrite !walk_nil, (files_differ_is_dir_at _ _ _ H).
  all: destruct (H (cur ++ [c])) as [E|[Hp Hp0]]; [|by apply Hplain].
  all: rewrite !(walk_eq _ _ cur), E.
  all: destruct (fs0 !! (cur ++ [c])) as [[d| |t]|] eqn:E0; try done.
  all: try apply IHrest; try apply IHn.
  all: destruct rest; try done.
  all: by rewrite (files_differ_is_dir_at _ _ _ H).
Qed.

Lemma walk_dir_files_removed n fs fs0 cur rest :
  files_removed fs fs0 -> walk_dir n fs cur rest = walk_dir n fs0 cur rest.
Proof. intros H. by apply walk_dir_files_differ, files_removed_differ. Qed.

Lemma walk_dirs_chain n fs R b :
  dirs_chain fs R b -> walk n fs R b = Some (R ++ b).
Proof.
  revert R. induction b as [|d b IH]; intros R; rewrite walk_eq.
  - by rewrite app_nil_r.
  - intros [E Hb]. rewrite E, (IH _ Hb). by rewrite <- app_assoc.
Qed.

Lemma dirs_chain_is_dir fs R b :
  is_dir_at fs R = true -> dirs_chain fs R b -> is_dir_at fs (R ++ b) = true.
Proof.
  revert R. induction b as [|d b IH]; intros R HR; simpl.
  - by rewrite app_nil_r.
  - intros [E Hb]. rewrite (app_assoc R [d] b : R ++ d :: b = (R ++ [d]) ++ b).
    apply IH; [|done]. unfold is_dir_at, node_at.
    destruct (R ++ [d]) eqn:E'; [by destruct R|]. by rewrite E.
Qed.

(** A resolution that meets no link needs no link budget. *)
Lemma walk_fuel_0 n fs cur rest k :
  walk 0 fs cur rest = Some k -> walk n fs cur rest = Some k.
Proof.
  revert cur. induction rest as [|c rest IH]; intros cur;
    rewrite (walk_eq 0), (walk_eq n); [done|].
  destruct (fs !! (cur ++ [c])) as [[d| |t]|]; try done. apply IH.
Qed.

(** Resolution composes: once a prefix has led to the directory [R],
    what follows is resolved from [R]. *)
Lemma walk_app n fs cur a R b k :
  walk n fs cur a = Some R -> is_dir_at fs R = true ->
  walk 0 fs R b = Some k -> walk n fs cur (a ++ b) = Some k.
Proof.
  intros Ha HR Hb. revert cur a Ha.
  assert (Hfile : forall cur c d, fs !! (cur ++ [c]) = Some (IFile d) ->
                    Some (cur ++ [c]) = Some R -> False).
  { intros cur c d E [= <-]. revert HR. unfold is_dir_at, node_at.
    destruct (cur ++ [c]) eqn:E'; [by destruct cur|by rewrite E]. }
  induction n as [|n IHn]; intros cur a; revert cur;
    induction a as [|c a IHa]; intros cur Ha.
  - rewrite walk_nil in Ha. by injection Ha as ->.
  - rewrite walk_eq in Ha. simpl. rewrite walk_eq.
    destruct (fs !! (cur ++ [c])) as [[d| |t]|] eqn:E; try done.
    + destruct a; [|done]. by destruct (Hfile _ _ _ E Ha).
    + by apply IHa.
  - rewrite walk_nil in Ha. injection Ha as ->. by apply walk_fuel_0.
  - rewrite walk_eq in Ha. simpl. rewrite walk_eq.
    destruct (fs !! (cur ++ [c])) as [[d| |t]|] eqn:E; try done.
    + destruct a; [|done]. by destruct (Hfile _ _ _ E Ha).
    + by apply IHa.
    + rewrite app_assoc. by apply IHn.
Qed.

(** An entry below a chain of real directories, itself no link. *)
Lemma walk_0_entry fs R ini name nd :
  dirs_chain fs R ini -> fs !! (R ++ ini ++ [name]) = Some nd ->
  is_link (Some nd) = false ->
  walk 0 fs R (ini ++ [name]) = Some (R ++ ini ++ [name]).
Proof.
  revert R. induction ini as [|d ini IH]; intros R; simpl.
  - intros _ E Hnd. rewrite walk_eq, E. by destruct nd.
  - intros [E Hc] E' Hnd. rewrite walk_eq, E.
    rewrite (app_assoc R [d] (ini ++ [name])
             : R ++ d :: ini ++ [name] = (R ++ [d]) ++ ini ++ [name]) in *.
    by apply IH.
Qed.

Lemma walk_file n fs R name d :
  fs !! (R ++ [name]) = Some (IFile d) -> walk n fs R [name] = Some (R ++ [name]).
Proof. intros E. by rewrite walk_eq, E. Qed.

Lemma walk_dir_entry n fs R name :
  fs !! (R ++ [name]) = Some IDir -> walk n fs R [name] = Some (R ++ [name]).
Proof. intros E. by rewrite walk_eq, E, walk_nil. Qed.

End Resolution.

(** ** Enumeration *)

Section Enumeration.

Implicit Types (fs : gmap (list string) inode) (R rel k : list string).

Lemma unsnoc_snoc {A} (l : list A) (x : A) : unsnoc (l ++ [x]) = Some (l, x).
Proof. induction l as [|y l IH]; [done|]. simpl. by rewrite IH. Qed.

Lemma unsnoc_Some {A} (l ini : list A) (x : A) :
  unsnoc l = Some (ini, x) -> l = ini ++ [x].
Proof.
  revert ini. induction l as [|y l IH]; intros ini; [done|]. simpl.
  destruct (unsnoc l) as [[ini' z]|] eqn:E.
  - intros [= <- <-]. by rewrite (IH _ eq_refl).
  - intros [= <- <-]. by destruct l as [|? l]; [|simpl in E; destruct (unsnoc l) as [[]|]].
Qed.

Lemma unsnoc_None {A} (l : list A) : unsnoc l = None -> l = [].
Proof. destruct l as [|y l]; [done|]. simpl. by destruct (unsnoc l) as [[]|]. Qed.

Lemma strip_prefix_Some R k rel : strip_prefix R k = Some rel <-> k = R ++ rel.
Proof.
  unfold strip_prefix. case_bool_decide as H.
  - destruct H as [rel' ->]. rewrite drop_app_length. split; [by intros [= ->]|].
    intros E. by apply app_inv_head in E as ->.
  - split; [done|]. intros ->. destruct H. by exists rel.
Qed.

Lemma real_dirs_chain fs R rel :
  real_dirs fs R rel = true ->
  exists ini name, rel = ini ++ [name] /\ dirs_chain fs R ini.
Proof.
  revert R. induction rel as [|d rel IH]; intros R; [done|]. simpl.
  destruct rel as [|d' rel].
  - intros _. by exists [], d.
  - destruct (fs !! (R ++ [d])) as [[| |]|] eqn:E; try done.
    intros H. destruct (IH _ H) as (ini & name & -> & Hc).
    exists (d :: ini), name. by repeat split.
Qed.

Lemma chain_real_dirs fs R ini name :
  dirs_chain fs R ini -> real_dirs fs R (ini ++ [name]) = true.
Proof.
  revert R. induction ini as [|d ini IH]; intros R; [done|].
  intros [E Hc]. simpl. rewrite E.
  destruct (ini ++ [name]) eqn:E'; [by destruct ini|]. by apply IH.
Qed.

Lemma elem_of_glob_rels fs R namepat rel :
  rel ∈ glob_rels fs R namepat <->
  is_Some (fs !! (R ++ rel)) /\ real_dirs fs R rel = true
  /\ name_matches namepat rel = true.
Proof.
  unfold glob_rels. rewrite list_elem_of_omap. split.
  - intros ([k nd] & Hin & Hf). apply elem_of_map_to_list in Hin. simpl in Hf.
    destruct (strip_prefix R k) as [rel'|] eqn:E; [|done].
    apply strip_prefix_Some in E as ->.
    destruct (real_dirs fs R rel') eqn:E1; [|done].
    destruct (name_matches namepat rel') eqn:E2; [|done].
    simpl in Hf. injection Hf as <-. eauto.
  - intros ([nd E] & E1 & E2). exists (R ++ rel, nd). split.
    + by apply elem_of_map_to_list.
    + simpl. rewrite (proj2 (strip_prefix_Some R (R ++ rel) rel) eq_refl).
      by rewrite E1, E2.
Qed.

Lemma NoDup_omap_keys {A B C} (f : A * B -> option C) (g : C -> A) (l : list (A * B)) :
  (forall x y, f x = Some y -> x.1 = g y) ->
  NoDup l.*1 -> NoDup (omap f l).
Proof.
  intros Hf. induction l as [|x l IH]; simpl; [constructor|].
  intros Hnd. apply NoDup_cons in Hnd as [Hx Hl].
  destruct (f x) as [y|] eqn:E; [|by apply IH].
  apply NoDup_cons. split; [|by apply IH].
  intros Hy. apply list_elem_of_omap in Hy as (x' & Hx' & E').
  apply Hx. rewrite (Hf _ _ E), <- (Hf _ _ E').
  apply list_elem_of_fmap. by exists x'.
Qed.

Lemma NoDup_glob_rels fs R namepat : NoDup (glob_rels fs R namepat).
Proof.
  unfold glob_rels. apply NoDup_omap_keys with (g := fun rel => R ++ rel).
  - intros [k nd] rel. simpl.
    destruct (strip_prefix R k) as [rel'|] eqn:E; [|done].
    apply strip_prefix_Some in E as ->.
    by destruct (real_dirs fs R rel' && name_matches namepat rel'); intros [= ->].
  - apply NoDup_fst_map_to_list.
Qed.

Lemma dirs_chain_files_removed fs fs0 R b :
  files_removed fs fs0 -> dirs_chain fs0 R b -> dirs_chain fs R b.
Proof.
  intros H. revert R. induction b as [|d b IH]; intros R; [done|].
  intros [E Hc]. split; [|by apply IH].
  destruct (H (R ++ [d])) as [->|[_ [d' E']]]; congruence.
Qed.

End Enumeration.

(** ** The pruning loop

    Both file filters run the same loop over what [glob] yielded: skip
    the path if it matches a keep-pattern or is a directory, unlink it
    otherwise.  The loop is analysed once, for any body of that shape,
    over a tree whose visited entries are regular files and directories. *)

Section Pruning.

Variable keep : pypath -> bool.
Variable body : pypath -> M unit.

Hypothesis body_keep : forall p w,
  keep p || is_directory w p = true ->
  exists w', body p w = Ok tt w' /\ w_fs w' = w_fs w /\ w_cwd w' = w_cwd w.

Hypothesis body_unlink : forall p w wu,
  keep p || is_directory w p = false ->
  unlink p w = Ok tt wu ->
  exists w', body p w = Ok tt w' /\ w_fs w' = w_fs wu /\ w_cwd w' = w_cwd w.

Variable fs0 : gmap (list string) inode.
Variable cwd0 : list string.
Variable root : pypath.
Variable R : list string.

Hypothesis root_dir :
  walk_dir MAXSYMLINKS fs0 (start_of cwd0 root) (parts root) = Some R.

Lemma root_walk fs :
  files_removed fs fs0 ->
  walk MAXSYMLINKS fs (start_of cwd0 root) (parts root) = Some R
  /\ is_dir_at fs R = true.
Proof.
  intros H. pose proof (walk_dir_files_removed MAXSYMLINKS _ _
                          (start_of cwd0 root) (parts root) H) as E.
  rewrite root_dir in E. unfold walk_dir in E.
  destruct (walk _ fs _ _) as [d|]; [|done].
  destruct (is_dir_at fs d) eqn:Ed; [|done]. by injection E as ->.
Qed.

Lemma entry_key fs rel :
  files_removed fs fs0 -> real_dirs fs0 R rel = true ->
  lstat_key fs cwd0 (descend root rel) = Some (R ++ rel).
Proof.
  intros H Hrel. destruct (root_walk _ H) as [Hw HR].
  destruct (real_dirs_chain _ _ _ Hrel) as (ini & name & -> & Hc).
  apply (dirs_chain_files_removed _ _ _ _ H) in Hc.
  unfold lstat_key, descend. cbn [parts anchored].
  rewrite app_assoc, unsnoc_snoc.
  change (start_of cwd0 {| anchored := anchored root; parts := (parts root ++ ini) ++ [name] |})
    with (start_of cwd0 root).
  rewrite (walk_app _ _ _ _ _ _ _ Hw HR (walk_dirs_chain 0 _ _ _ Hc)).
  rewrite (dirs_chain_is_dir _ _ _ HR Hc). by rewrite <- app_assoc.
Qed.

Lemma entry_stat fs rel nd :
  files_removed fs fs0 -> real_dirs fs0 R rel = true ->
  fs !! (R ++ rel) = Some nd -> is_link (Some nd) = false ->
  stat fs cwd0 (descend root rel) = Some nd.
Proof.
  intros H Hrel E Hnd. destruct (root_walk _ H) as [Hw HR].
  destruct (real_dirs_chain _ _ _ Hrel) as (ini & name & -> & Hc).
  apply (dirs_chain_files_removed _ _ _ _ H) in Hc.
  unfold stat, stat_key, descend. cbn [parts anchored].
  change (start_of cwd0 {| anchored := anchored root; parts := parts root ++ ini ++ [name] |})
    with (start_of cwd0 root).
  rewrite (walk_app _ _ _ _ _ _ _ Hw HR (walk_0_entry _ _ _ _ _ Hc E Hnd)).
  simpl. unfold node_at. destruct (R ++ ini ++ [name]) eqn:E'; [|done].
  apply app_eq_nil in E' as [_ E']. by destruct ini.
Qed.

Lemma prune_loop (L : list (list string)) :
  NoDup L -> (forall rel, rel ∈ L -> plain_entry fs0 R rel) ->
  forall w, w_cwd w = cwd0 -> files_removed (w_fs w) fs0 ->
    (forall rel, rel ∈ L -> w_fs w !! (R ++ rel) = fs0 !! (R ++ rel)) ->
  exists w',
    for_each (map (descend root) L) body w = Ok tt w'
    /\ w_cwd w' = cwd0
    /\ files_removed (w_fs w') fs0
    /\ (forall rel, rel ∈ L ->
          w_fs w' !! (R ++ rel) =
            if keep (descend root rel) || is_dir_at fs0 (R ++ rel)
            then fs0 !! (R ++ rel) else None)
    /\ (forall k, (forall rel, rel ∈ L -> k <> R ++ rel) -> w_fs w' !! k = w_fs w !! k).
Proof.
  induction L as [|rel L IH]; intros Hnd Hplain w Hcwd Hrm Hsame.
  { exists w. repeat split; try done. intros rel Hin. by apply elem_of_nil in Hin. }
  apply NoDup_cons in Hnd as [Hrel HndL].
  destruct (Hplain rel) as (Hreal & nd & End & Hlink); [by left|].
  assert (Ew : w_fs w !! (R ++ rel) = Some nd) by (rewrite Hsame; [done|by left]).
  assert (Hdir : is_directory w (descend root rel) = is_dir_at fs0 (R ++ rel)).
  { unfold is_directory. rewrite Hcwd, (entry_stat _ _ _ Hrm Hreal Ew Hlink).
    unfold is_dir_at, node_at. destruct (R ++ rel) eqn:E'; [|by rewrite End].
    apply app_eq_nil in E' as [_ ->]. done. }
  assert (Hne : forall rel', rel' ∈ L -> R ++ rel <> R ++ rel').
  { intros rel' Hin E. apply app_inv_head in E as ->. done. }
  simpl. unfold bind at 1.
  destruct (keep (descend root rel) || is_directory w (descend root rel)) eqn:Hk.
  - destruct (body_keep _ _ Hk) as (w1 & Hb & Hfs & Hc). rewrite Hb.
    destruct (IH HndL (fun r Hr => Hplain r (list_elem_of_further _ _ _ Hr)) w1)
      as (w' & Hrun & Hc' & Hrm' & Hin' & Hout').
    { by rewrite Hc. }
    { by rewrite Hfs. }
    { intros r Hr. rewrite Hfs. apply Hsame. by right. }
    exists w'. split; [done|]. split; [done|]. split; [done|]. split.
    + intros r Hr. apply elem_of_cons in Hr as [->|Hr]; [|by apply Hin'].
      rewrite (Hout' _ Hne), Hfs, Ew, <- Hdir, Hk. done.
    + intros k Hk'. rewrite Hout', Hfs; [done|].
      intros r Hr. apply Hk'. by right.
  - assert (exists d, nd = IFile d) as [d ->].
    { apply orb_false_iff in Hk as [_ Hk]. rewrite Hdir in Hk.
      revert Hk. unfold is_dir_at, node_at.
      destruct (R ++ rel) eqn:E'; [done|]. rewrite End.
      destruct nd; [eauto|done|done]. }
    assert (Hu : unlink (descend root rel) w
                 = Ok tt (set_fs (delete (R ++ rel) (w_fs w)) w)).
    { unfold unlink. by rewrite Hcwd, (entry_key _ _ Hrm Hreal), Ew. }
    destruct (body_unlink _ _ _ Hk Hu) as (w1 & Hb & Hfs & Hc). rewrite Hb.
    simpl in Hfs.
    destruct (IH HndL (fun r Hr => Hplain r (list_elem_of_further _ _ _ Hr)) w1)
      as (w' & Hrun & Hc' & Hrm' & Hin' & Hout').
    { by rewrite Hc. }
    { rewrite Hfs. by eapply files_removed_delete. }
    { intros r Hr. rewrite Hfs, lookup_delete_ne by (by apply Hne).
      apply Hsame. by right. }
    exists w'. split; [done|]. split; [done|]. split; [done|]. split.
    + intros r Hr. apply elem_of_cons in Hr as [->|Hr]; [|by apply Hin'].
      rewrite (Hout' _ Hne), Hfs, lookup_delete_eq, <- Hdir, Hk. done.
    + intros k Hk'. rewrite Hout', Hfs.
      * apply lookup_delete_ne. intros E. by apply (Hk' rel); [left|].
      * intros r Hr. apply Hk'. by right.
Qed.

End Pruning.

(** ** The two file filters *)

Lemma unlink_depends p w w2 wu :
  unlink p w = Ok tt wu -> w_fs w2 = w_fs w -> w_cwd w2 = w_cwd w ->
  exists wu2, unlink p w2 = Ok tt wu2 /\ w_fs wu2 = w_fs wu /\ w_cwd wu2 = w_cwd w.
Proof.
  unfold unlink. intros H Hfs Hcwd. rewrite Hfs, Hcwd.
  destruct (lstat_key _ _ _) as [k|]; [|done].
  destruct (w_fs w !! k) as [[d| |t]|]; try done; injection H as <-;
    eexists; (split; [reflexivity|by split]).
Qed.

Lemma glob_visited root namepat w : glob root namepat w = Ok (visited root namepat w) w.
Proof.
  unfold visited, glob. destruct (stat_key _ _ _) as [R|]; [|done].
  by destruct (is_dir_at _ R).
Qed.


(** The loop of a filter, run over what [glob] yielded. *)
Lemma filter_run keepers body root namepat w :
  (forall p w, path_matches p keepers || is_directory w p = true ->
     exists w', body p w = Ok tt w' /\ w_fs w' = w_fs w /\ w_cwd w' = w_cwd w) ->
  (forall p w wu, path_matches p keepers || is_directory w p = false ->
     unlink p w = Ok tt wu ->
     exists w', body p w = Ok tt w' /\ w_fs w' = w_fs wu /\ w_cwd w' = w_cwd w) ->
  plain_tree root namepat w ->
  pruned_by (paths <- glob root namepat; for_each paths body) root namepat keepers w.
Proof.
  intros Hkeep Hunlink Hplain. unfold pruned_by, plain_tree in *.
  unfold bind at 1. rewrite glob_visited.
  revert Hplain. unfold visited, glob.
  destruct (stat_key (w_fs w) (w_cwd w) root) as [R|] eqn:ER;
    [destruct (is_dir_at (w_fs w) R) eqn:EdR|].
  2,3: intros _; exists w; split; [done|]; split; [done|]; split; [|by split];
       intros p Hp; by apply elem_of_nil in Hp.
  set (L := glob_rels (w_fs w) R namepat). intros Hplain.
  assert (Hroot : walk_dir MAXSYMLINKS (w_fs w) (start_of (w_cwd w) root) (parts root)
                  = Some R).
  { unfold walk_dir. unfold stat_key in ER. by rewrite ER, EdR. }
  assert (Hentry : forall rel, rel ∈ L ->
            entry w (descend root rel) = w_fs w !! (R ++ rel)
            /\ lstat_key (w_fs w) (w_cwd w) (descend root rel) = Some (R ++ rel)
            /\ plain_entry (w_fs w) R rel).
  { intros rel Hin.
    destruct (proj1 (elem_of_glob_rels _ _ _ _) Hin) as ([nd End] & Hreal & _).
    pose proof (entry_key _ _ _ _ Hroot _ rel (files_removed_refl _) Hreal) as Ek.
    assert (E : entry w (descend root rel) = w_fs w !! (R ++ rel)).
    { unfold entry, lstat. by rewrite Ek. }
    split; [done|]. split; [done|]. split; [done|]. exists nd. split; [done|].
    rewrite <- End, <- E. apply Hplain. apply list_elem_of_fmap. eauto. }
  destruct (prune_loop (fun p => path_matches p keepers) body Hkeep Hunlink
              (w_fs w) (w_cwd w) root R Hroot L (NoDup_glob_rels _ _ _)
              (fun rel Hin => proj2 (proj2 (Hentry rel Hin)))
              w eq_refl (files_removed_refl _) (fun _ _ => eq_refl))
    as (w' & Hrun & Hcwd & Hrm & Hin & Hout).
  exists w'. split; [done|]. split; [done|]. split; [|split].
  - intros p Hp. apply list_elem_of_fmap in Hp as (rel & -> & Hrel).
    destruct (Hentry rel Hrel) as (E & Ek & Hreal & nd & End & Hlink).
    assert (E' : entry w' (descend root rel) = w_fs w' !! (R ++ rel)).
    { unfold entry, lstat. by rewrite Hcwd, (entry_key _ _ _ _ Hroot _ rel Hrm Hreal). }
    assert (Hdir : is_directory w (descend root rel) = is_dir_at (w_fs w) (R ++ rel)).
    { unfold is_directory.
      rewrite (entry_stat _ _ _ _ Hroot _ rel nd (files_removed_refl _) Hreal End Hlink).
      unfold is_dir_at, node_at. destruct (R ++ rel) eqn:E''; [|by rewrite End].
      apply app_eq_nil in E'' as [_ ->]. done. }
    rewrite E', E, (Hin _ Hrel), <- Hdir, End.
    destruct (path_matches (descend root rel) keepers); simpl;
      [|destruct (is_directory w (descend root rel))]; repeat split; try done;
      intros []; done.
  - intros k Hk. apply Hout. intros rel Hrel ->.
    apply (Hk (descend root rel)); [apply list_elem_of_fmap; eauto|].
    by destruct (Hentry rel Hrel) as (_ & ? & _).
  - intros k Ek. destruct (Hrm k) as [->|[_ [d Ed]]]; congruence.
Qed.

Lemma reduce_draw_examples_pruned w :
  plain_tree (WEB_DIR // "doc/doc/draw_examples") "*" w ->
  pruned_by reduce_draw_examples (WEB_DIR // "doc/doc/draw_examples") "*"
    ["*gaps-per-seq*"; "*-square.py"; "*README*"] w.
Proof.
  apply filter_run.
  - intros p w0 Hk. exists w0. unfold bind, is_dir. cbn beta iota.
    fold (is_directory w0 p). by rewrite Hk.
  - intros p w0 wu Hk Hu. exists wu. unfold bind, is_dir. cbn beta iota.
    fold (is_directory w0 p). rewrite Hk. split; [done|]. split; [done|].
    revert Hu. unfold unlink. destruct (lstat_key _ _ _) as [k|]; [|done].
    by destruct (w_fs w0 !! k) as [[]|]; intros [= <-].
Qed.

Lemma remove_docs_pruned pattern w :
  plain_tree (WEB_DIR // "doc/doc") "*.rst" w ->
  pruned_by (remove_docs pattern) (WEB_DIR // "doc/doc") "*.rst"
    [pattern; "*index.rst"; "*template*"; "*draw_exa*"] w.
Proof.
  apply filter_run.
  - intros p w0 Hk. exists w0. unfold bind, is_dir. cbn beta iota.
    fold (is_directory w0 p). by rewrite Hk.
  - intros p w0 wu Hk Hu. unfold bind, is_dir. cbn beta iota.
    fold (is_directory w0 p). rewrite Hk.
    destruct (str_contains "template" (str p)).
    + unfold print. cbn beta iota.
      destruct (unlink_depends p w0
                  (World (w_fs w0) (w_cwd w0) (w_stdout w0 +:+ str p +:+ chr NL) (w_stderr w0))
                  wu Hu eq_refl eq_refl) as (wu2 & -> & ? & ?).
      by exists wu2.
    + unfold ret. exists wu. split; [done|]. split; [done|].
      revert Hu. unfold unlink. destruct (lstat_key _ _ _) as [k|]; [|done].
      by destruct (w_fs w0 !! k) as [[]|]; intros [= <-].
Qed.





Lemma plain_tree_checked root namepat w :
  plain_tree_check root namepat w = true -> plain_tree root namepat w.
Proof.
  unfold plain_tree_check, plain_tree. intros H p Hp.
  rewrite forallb_forall in H. apply list_elem_of_In in Hp.
  by apply negb_true_iff, H.
Qed.

(** ** Entries directly below the root *)

Lemma child_entry root w name nd :
  entry w (descend root [name]) = Some nd ->
  exists R, walk MAXSYMLINKS (w_fs w) (start_of (w_cwd w) root) (parts root) = Some R
            /\ is_dir_at (w_fs w) R = true
            /\ w_fs w !! (R ++ [name]) = Some nd.
Proof.
  unfold entry, lstat, lstat_key, descend. cbn [parts anchored].
  rewrite unsnoc_snoc.
  change (start_of (w_cwd w) {| anchored := anchored root; parts := parts root ++ [name] |})
    with (start_of (w_cwd w) root).
  destruct (walk _ _ _ _) as [R|]; [|done].
  destruct (is_dir_at (w_fs w) R) eqn:E; [|done]. simpl. eauto.
Qed.

Lemma visited_child root namepat w name nd :
  entry w (descend root [name]) = Some nd -> fnmatch name namepat = true ->
  descend root [name] ∈ visited root namepat w.
Proof.
  intros He Hm. destruct (child_entry _ _ _ _ He) as (R & Hw & HR & E).
  unfold visited, glob, stat_key. rewrite Hw, HR.
  apply list_elem_of_fmap. exists [name]. split; [done|].
  apply elem_of_glob_rels. by repeat split; [eexists|].
Qed.

Lemma child_file_is_no_directory root w name d :
  entry w (descend root [name]) = Some (IFile d) ->
  is_directory w (descend root [name]) = false.
Proof.
  intros He. destruct (child_entry _ _ _ _ He) as (R & Hw & HR & E).
  unfold is_directory, stat, stat_key, descend. cbn [parts anchored].
  change (start_of (w_cwd w) {| anchored := anchored root; parts := parts root ++ [name] |})
    with (start_of (w_cwd w) root).
  rewrite (walk_app _ _ _ _ _ _ _ Hw HR (walk_file 0 _ _ _ _ E)). simpl.
  unfold node_at. destruct (R ++ [name]) eqn:E'; [by destruct R|]. by rewrite E.
Qed.

(** What a filter leaves of a regular file directly below its root. *)
Lemma pruned_child run root namepat keepers w name d :
  pruned_by run root namepat keepers w ->
  entry w (descend root [name]) = Some (IFile d) ->
  fnmatch name namepat = true ->
  exists w', run w = Ok tt w'
    /\ entry w' (descend root [name]) =
         if path_matches (descend root [name]) keepers then Some (IFile d) else None.
Proof.
  intros (w' & Hrun & _ & Hvis & _) He Hm. exists w'. split; [done|].
  destruct (Hvis _ (visited_child _ _ _ _ _ He Hm)) as (_ & Hiff & Hkeep).
  destruct (path_matches (descend root [name]) keepers).
  - rewrite <- He. apply Hkeep. intros E. by apply Hiff in E as [? _].
  - apply Hiff. split; [done|]. by eapply child_file_is_no_directory.
Qed.

(** ** The scenarios *)

(** C7: with [intro_index.rst], [tutorial_basic.rst], [advanced.rst] and
    [template_foo.rst] as files in the doc root (of a tree of regular
    files and directories), [remove_docs("*tutorial*")] keeps the first
    two and the template as they are and deletes [advanced.rst]. *)
Theorem remove_docs_tutorial_scenario (w : world) (d1 d2 d3 d4 : string) :
  plain_tree (WEB_DIR // "doc/doc") "*.rst" w ->
  entry w (WEB_DIR // "doc/doc" // "intro_index.rst") = Some (IFile d1) ->
  entry w (WEB_DIR // "doc/doc" // "tutorial_basic.rst") = Some (IFile d2) ->
  entry w (WEB_DIR // "doc/doc" // "advanced.rst") = Some (IFile d3) ->
  entry w (WEB_DIR // "doc/doc" // "template_foo.rst") = Some (IFile d4) ->
  exists w',
    remove_docs "*tutorial*" w = Ok tt w'
    /\ entry w' (WEB_DIR // "doc/doc" // "intro_index.rst") = Some (IFile d1)
    /\ entry w' (WEB_DIR // "doc/doc" // "tutorial_basic.rst") = Some (IFile d2)
    /\ entry w' (WEB_DIR // "doc/doc" // "template_foo.rst") = Some (IFile d4)
    /\ entry w' (WEB_DIR // "doc/doc" // "advanced.rst") = None.
Proof.
  intros Hplain H1 H2 H3 H4.
  pose proof (remove_docs_pruned "*tutorial*" w Hplain) as Hp.
  destruct (pruned_child _ _ _ _ _ "intro_index.rst" d1 Hp H1 eq_refl) as (w' & Hrun & E1).
  destruct (pruned_child _ _ _ _ _ "tutorial_basic.rst" d2 Hp H2 eq_refl) as (w2 & Hrun2 & E2).
  destruct (pruned_child _ _ _ _ _ "advanced.rst" d3 Hp H3 eq_refl) as (w3 & Hrun3 & E3).
  destruct (pruned_child _ _ _ _ _ "template_foo.rst" d4 Hp H4 eq_refl) as (w4 & Hrun4 & E4).
  rewrite Hrun in Hrun2, Hrun3, Hrun4.
  injection Hrun2 as <-. injection Hrun3 as <-. injection Hrun4 as <-.
  exists w'. split; [done|]. repeat split; [exact E1|exact E2|exact E4|exact E3].
Qed.

(** C8: with [plot-square.py], [scatter.py], [README.rst] and
    [gaps-per-seq-1.png] as files in the draw-examples root (of a tree of
    regular files and directories), [reduce_draw_examples()] keeps the
    first, the third and the fourth as they are and deletes
    [scatter.py]. *)
Theorem reduce_draw_examples_scenario (w : world) (d1 d2 d3 d4 : string) :
  plain_tree (WEB_DIR // "doc/doc/draw_examples") "*" w ->
  entry w (WEB_DIR // "doc/doc/draw_examples" // "plot-square.py") = Some (IFile d1) ->
  entry w (WEB_DIR // "doc/doc/draw_examples" // "scatter.py") = Some (IFile d2) ->
  entry w (WEB_DIR // "doc/doc/draw_examples" // "README.rst") = Some (IFile d3) ->
  entry w (WEB_DIR // "doc/doc/draw_examples" // "gaps-per-seq-1.png") = Some (IFile d4) ->
  exists w',
    reduce_draw_examples w = Ok tt w'
    /\ entry w' (WEB_DIR // "doc/doc/draw_examples" // "plot-square.py") = Some (IFile d1)
    /\ entry w' (WEB_DIR // "doc/doc/draw_examples" // "README.rst") = Some (IFile d3)
    /\ entry w' (WEB_DIR // "doc/doc/draw_examples" // "gaps-per-seq-1.png") = Some (IFile d4)
    /\ entry w' (WEB_DIR // "doc/doc/draw_examples" // "scatter.py") = None.
Proof.
  intros Hplain H1 H2 H3 H4.
  pose proof (reduce_draw_examples_pruned w Hplain) as Hp.
  destruct (pruned_child _ _ _ _ _ "plot-square.py" d1 Hp H1 eq_refl) as (w' & Hrun & E1).
  destruct (pruned_child _ _ _ _ _ "scatter.py" d2 Hp H2 eq_refl) as (w2 & Hrun2 & E2).
  destruct (pruned_child _ _ _ _ _ "README.rst" d3 Hp H3 eq_refl) as (w3 & Hrun3 & E3).
  destruct (pruned_child _ _ _ _ _ "gaps-per-seq-1.png" d4 Hp H4 eq_refl) as (w4 & Hrun4 & E4).
  rewrite Hrun in Hrun2, Hrun3, Hrun4.
  injection Hrun2 as <-. injection Hrun3 as <-. injection Hrun4 as <-.
  exists w'. split; [done|]. repeat split; [exact E1|exact E3|exact E4|exact E2].
Qed.

(** The checkout holds no link below its doc root, nor below its
    draw-examples root. *)
Lemma scenario_doc_tree_plain : plain_tree (WEB_DIR // "doc/doc") "*.rst" scenario_world.
Proof. apply plain_tree_checked. vm_compute. reflexivity. Qed.

Lemma scenario_draw_tree_plain :
  plain_tree (WEB_DIR // "doc/doc/draw_examples") "*" scenario_world.
Proof. apply plain_tree_checked. vm_compute. reflexivity. Qed.

(** The scenario in the checkout [scenario_world]. *)
Lemma remove_docs_tutorial_scenario_witness :
  exists w',
    remove_docs "*tutorial*" scenario_world = Ok tt w'
    /\ entry w' (WEB_DIR // "doc/doc" // "intro_index.rst") = Some (IFile "index")
    /\ entry w' (WEB_DIR // "doc/doc" // "tutorial_basic.rst") = Some (IFile "tutorial")
    /\ entry w' (WEB_DIR // "doc/doc" // "template_foo.rst") = Some (IFile "template")
    /\ entry w' (WEB_DIR // "doc/doc" // "advanced.rst") = None.
Proof.
  apply (remove_docs_tutorial_scenario scenario_world
           "index" "tutorial" "advanced" "template").
  - exact scenario_doc_tree_plain.
  - vm_compute. reflexivity.
  - vm_compute. reflexivity.
  - vm_compute. reflexivity.
  - vm_compute. reflexivity.
Defined.

(** The scenario in the checkout [scenario_world]. *)
Lemma reduce_draw_examples_scenario_witness :
  exists w',
    reduce_draw_examples scenario_world = Ok tt w'
    /\ entry w' (WEB_DIR // "doc/doc/draw_examples" // "plot-square.py") = Some (IFile "square")
    /\ entry w' (WEB_DIR // "doc/doc/draw_examples" // "README.rst") = Some (IFile "readme")
    /\ entry w' (WEB_DIR // "doc/doc/draw_examples" // "gaps-per-seq-1.png") = Some (IFile "png")
    /\ entry w' (WEB_DIR // "doc/doc/draw_examples" // "scatter.py") = None.
Proof.
  apply (reduce_draw_examples_scenario scenario_world
           "square" "scatter" "readme" "png").
  - exact scenario_draw_tree_plain.
  - vm_compute. reflexivity.
  - vm_compute. reflexivity.
  - vm_compute. reflexivity.
  - vm_compute. reflexivity.
Defined.



(** ** Removing the old clones *)

Lemma bind_Ok {A B} (m : M A) (k : A -> M B) w b w' :
  bind m k w = Ok b w' -> exists a w1, m w = Ok a w1 /\ k a w1 = Ok b w'.
Proof. unfold bind. destruct (m w) as [a w1|e w1]; [eauto|done]. Qed.

Lemma not_below_lookup (k : list string) (fs : gmap (list string) inode) (k' : list string) :
  not_below k fs !! k' = if decide (k `prefix_of` k') then None else fs !! k'.
Proof.
  unfold not_below. destruct (decide (k `prefix_of` k')) as [H|H].
  - apply map_lookup_filter_None. right. intros nd _ Hn. by apply Hn.
  - destruct (fs !! k') as [nd|] eqn:E.
    + by apply map_lookup_filter_Some.
    + apply map_lookup_filter_None. by left.
Qed.

Lemma not_below_subseteq (k : list string) (fs : gmap (list string) inode) :
  not_below k fs ⊆ fs.
Proof. apply map_filter_subseteq. Qed.

Section RemoveOldRepos.

(** One round of the loop in [remove_old_repos]. *)
Let step (p : pypath) : M unit :=
  e <- path_exists p; if e then rmtree p else ret tt.

Lemma remove_old_repos_steps :
  remove_old_repos = (step WEB_DIR;; step SRC_DIR;; ret tt).
Proof. reflexivity. Qed.

Lemma step_absent name w :
  stat (w_fs w) (w_cwd w) (Path false [name]) = None ->
  step (Path false [name]) w = Ok tt w.
Proof. intros E. unfold step, bind, path_exists. by rewrite E. Qed.

Lemma step_removed name w w1 :
  step (Path false [name]) w = Ok tt w1 ->
  w_cwd w1 = w_cwd w /\ w_fs w1 ⊆ w_fs w
  /\ stat (w_fs w1) (w_cwd w1) (Path false [name]) = None.
Proof.
  unfold step, bind, path_exists.
  destruct (stat (w_fs w) (w_cwd w) (Path false [name])) as [nd|] eqn:E.
  - unfold rmtree, lstat_key. cbn [parts unsnoc start_of anchored].
    rewrite walk_nil. destruct (is_dir_at (w_fs w) (w_cwd w)); [|done].
    destruct (w_fs w !! (w_cwd w ++ [name])) as [[d| |t]|]; try done.
    intros [= <-]. split; [done|]. split; [apply not_below_subseteq|].
    unfold stat, stat_key. cbn [w_fs w_cwd set_fs parts start_of anchored].
    rewrite walk_eq, not_below_lookup. by rewrite decide_True.
  - intros [= <-]. split; [done|]. by split.
Qed.

Lemma step_directory name w :
  is_dir_at (w_fs w) (w_cwd w) = true ->
  w_fs w !! (w_cwd w ++ [name]) = Some IDir ->
  step (Path false [name]) w = Ok tt (set_fs (not_below (w_cwd w ++ [name]) (w_fs w)) w).
Proof.
  intros Hc E. unfold step, bind, path_exists, stat, stat_key.
  cbn [parts start_of anchored]. rewrite walk_eq, E, walk_nil. simpl.
  rewrite node_at_snoc, E.
  unfold rmtree, lstat_key. cbn [parts unsnoc start_of anchored].
  by rewrite walk_nil, Hc, E.
Qed.

Lemma step_nothing name w :
  w_fs w !! (w_cwd w ++ [name]) = None -> step (Path false [name]) w = Ok tt w.
Proof.
  intros E. apply step_absent. unfold stat, stat_key.
  cbn [parts start_of anchored]. by rewrite walk_eq, E.
Qed.

Lemma remove_old_repos_facts (w : world) :
  (stat (w_fs w) (w_cwd w) WEB_DIR = None ->
   stat (w_fs w) (w_cwd w) SRC_DIR = None ->
   remove_old_repos w = Ok tt w)
  /\ (forall w1,
        remove_old_repos w = Ok tt w1 ->
        stat (w_fs w1) (w_cwd w1) WEB_DIR = None
        /\ stat (w_fs w1) (w_cwd w1) SRC_DIR = None
        /\ remove_old_repos w1 = Ok tt w1
        /\ (remove_old_repos;; remove_old_repos) w = Ok tt w1)
  /\ (is_dir_at (w_fs w) (w_cwd w) = true ->
      (entry w WEB_DIR = None \/ entry w WEB_DIR = Some IDir) ->
      (entry w SRC_DIR = None \/ entry w SRC_DIR = Some IDir) ->
      returned (remove_old_repos w) = true).
Proof.
  rewrite remove_old_repos_steps.
  change WEB_DIR with (Path false ["c3org"]). change SRC_DIR with (Path false ["c3src"]).
  split; [|split].
  - intros E1 E2. unfold bind at 1. rewrite (step_absent _ _ E1).
    unfold bind at 1. by rewrite (step_absent _ _ E2).
  - intros w1 Hrun. pose proof Hrun as Hrun0.
    apply bind_Ok in Hrun as ([] & wa & Ha & Hrun).
    apply bind_Ok in Hrun as ([] & wb & Hb & [= ->]).
    apply step_removed in Ha as (Hca & Hsa & Ea).
    apply step_removed in Hb as (Hcb & Hsb & Eb).
    assert (E1 : stat (w_fs w1) (w_cwd w1) (Path false ["c3org"]) = None).
    { destruct (stat (w_fs w1) (w_cwd w1) (Path false ["c3org"])) as [nd|] eqn:E; [|done].
      rewrite Hcb in E. apply (stat_mono _ _ _ _ _ Hsb) in E. congruence. }
    assert (Hagain : (step (Path false ["c3org"]);; step (Path false ["c3src"]);; ret tt) w1
                     = Ok tt w1).
    { unfold bind at 1. rewrite (step_absent _ _ E1).
      unfold bind at 1. by rewrite (step_absent _ _ Eb). }
    split; [done|]. split; [done|]. split; [done|].
    unfold bind at 1. rewrite Hrun0. exact Hagain.
  - intros Hc H1 H2.
    assert (Hentry : forall name, entry w (Path false [name]) = w_fs w !! (w_cwd w ++ [name])).
    { intros name. unfold entry, lstat, lstat_key. cbn [parts unsnoc start_of anchored].
      by rewrite walk_nil, Hc. }
    rewrite Hentry in H1, H2.
    assert (exists wa, step (Path false ["c3org"]) w = Ok tt wa
              /\ w_cwd wa = w_cwd w
              /\ is_dir_at (w_fs wa) (w_cwd wa) = true
              /\ w_fs wa !! (w_cwd w ++ ["c3src"]) = w_fs w !! (w_cwd w ++ ["c3src"]))
      as (wa & Ha & Hca & Hda & Hsa).
    { destruct H1 as [E|E].
      - exists w. by rewrite (step_nothing _ _ E).
      - eexists. split; [by apply step_directory|]. split; [done|].
        cbn [w_fs w_cwd set_fs]. split.
        + revert Hc. unfold is_dir_at, node_at. destruct (w_cwd w) as [|c l] eqn:Ec; [done|].
          rewrite not_below_lookup, decide_False; [done|].
          intros Hp. apply prefix_length in Hp. rewrite length_app in Hp. simpl in Hp. lia.
        + rewrite not_below_lookup, decide_False; [done|].
          intros Hp. apply prefix_app_inv in Hp. by destruct Hp as [? [=]]. }
    unfold bind at 1. rewrite Ha. unfold bind at 1.
    rewrite <- Hsa, <- Hca in H2. destruct H2 as [E|E].
    + by rewrite (step_nothing "c3src" wa E).
    + by rewrite (step_directory "c3src" wa Hda E).
Qed.

End RemoveOldRepos.

(** C6: two calls of [remove_old_repos] in a row come to what one call
    comes to, in every world; a call does nothing when neither clone
    exists; when a call returns, neither clone exists any more and a
    second call returns too, changing nothing; and a call returns
    whenever each of the two names is absent or a plain directory in
    the current directory. *)
Theorem remove_old_repos_idempotent (w : world) :
  (remove_old_repos;; remove_old_repos) w = remove_old_repos w
  /\ (stat (w_fs w) (w_cwd w) WEB_DIR = None ->
      stat (w_fs w) (w_cwd w) SRC_DIR = None ->
      remove_old_repos w = Ok tt w)
  /\ (forall w1,
        remove_old_repos w = Ok tt w1 ->
        stat (w_fs w1) (w_cwd w1) WEB_DIR = None
        /\ stat (w_fs w1) (w_cwd w1) SRC_DIR = None
        /\ remove_old_repos w1 = Ok tt w1)
  /\ (is_dir_at (w_fs w) (w_cwd w) = true ->
      (entry w WEB_DIR = None \/ entry w WEB_DIR = Some IDir) ->
      (entry w SRC_DIR = None \/ entry w SRC_DIR = Some IDir) ->
      returned (remove_old_repos w) = true).
Proof.
  destruct (remove_old_repos_facts w) as (Habsent & Hagain & Hdirs).
  split; [|split; [done|split; [|done]]].
  - destruct (remove_old_repos w) as [[] w1|e w1] eqn:E.
    + by destruct (Hagain w1 eq_refl) as (_ & _ & _ & ->).
    + unfold bind. by rewrite E.
  - intros w1 Hrun. by destruct (Hagain w1 Hrun) as (? & ? & ? & _).
Qed.

Lemma returned_Ok (o : outcome unit) : returned o = true -> o = Ok tt (world_of o).
Proof. by destruct o as [[] w|e w]. Qed.

(** Nothing to remove in [demo_world]; both clones removed from
    [scenario_world], and nothing left to remove then. *)
Lemma remove_old_repos_idempotent_witness :
  remove_old_repos demo_world = Ok tt demo_world
  /\ returned (remove_old_repos scenario_world) = true
  /\ remove_old_repos (world_of (remove_old_repos scenario_world))
       = Ok tt (world_of (remove_old_repos scenario_world)).
Proof.
  split; [|split].
  - apply (proj1 (proj2 (remove_old_repos_idempotent demo_world)));
      vm_compute; reflexivity.
  - apply (proj2 (proj2 (proj2 (remove_old_repos_idempotent scenario_world))));
      vm_compute; auto.
  - apply (proj1 (proj2 (proj2 (remove_old_repos_idempotent scenario_world)))).
    apply returned_Ok. vm_compute. reflexivity.
Defined.

(** ** The working directory *)



Section WorkingDirectory.

Variable shell : string -> list string -> gmap (list string) inode -> proc.
Variable HOME : list string.



End WorkingDirectory.


(** ** Cloning, linking and moving *)

Section PlainLayout.

Implicit Types (fs : gmap (list string) inode) (C pre : list string).

Lemma reachable_spec fs d :
  reachable fs d = true <-> walk 0 fs [] d = Some d /\ is_dir_at fs d = true.
Proof.
  unfold reachable. destruct (walk 0 fs [] d) as [k|]; [|by split; [|intros []]].
  rewrite andb_true_iff, bool_decide_eq_true. split.
  - by intros [-> ?].
  - by intros [[= ->] ?].
Qed.

Lemma reachable_mono fs fs' d :
  fs ⊆ fs' -> reachable fs d = true -> reachable fs' d = true.
Proof.
  intros Hsub [Hw Hd]%reachable_spec. apply reachable_spec. split.
  - by apply (walk_mono _ _ _ _ _ _ Hsub).
  - revert Hd. unfold is_dir_at. destruct (node_at fs d) as [[]|] eqn:E; try done.
    by rewrite (node_at_mono _ _ _ _ Hsub E).
Qed.

Lemma reachable_files_differ fs fs0 d :
  files_differ fs fs0 -> reachable fs0 d = true -> reachable fs d = true.
Proof.
  intros H [Hw Hd]%reachable_spec. apply reachable_spec.
  pose proof (walk_dir_files_differ 0 _ _ [] d H) as E.
  unfold walk_dir in E. rewrite Hw, Hd in E.
  destruct (walk 0 fs [] d) as [k|]; [|done].
  destruct (is_dir_at fs k) eqn:Ek; [|done]. by injection E as ->.
Qed.

Lemma abs_walk n fs C pre :
  reachable fs C = true -> dirs_chain fs C pre ->
  walk n fs [] (C ++ pre) = Some (C ++ pre) /\ is_dir_at fs (C ++ pre) = true.
Proof.
  intros [Hw Hd]%reachable_spec Hc. split.
  - apply (walk_app _ _ _ _ C); [by apply walk_fuel_0|done|by apply walk_dirs_chain].
  - by apply dirs_chain_is_dir.
Qed.

Lemma abs_lstat_key fs C0 C pre name :
  reachable fs C = true -> dirs_chain fs C pre ->
  lstat_key fs C0 (Path true (C ++ pre ++ [name])) = Some (C ++ pre ++ [name]).
Proof.
  intros Hr Hc. destruct (abs_walk MAXSYMLINKS _ _ _ Hr Hc) as [Hw Hd].
  unfold lstat_key. cbn [parts start_of anchored].
  by rewrite (app_assoc C pre [name]), unsnoc_snoc, Hw, Hd.
Qed.

Lemma rel_lstat_key fs C pre name :
  reachable fs C = true -> dirs_chain fs C pre ->
  lstat_key fs C (Path false (pre ++ [name])) = Some (C ++ pre ++ [name]).
Proof.
  intros [_ Hd]%reachable_spec Hc.
  unfold lstat_key. cbn [parts start_of anchored].
  rewrite unsnoc_snoc, (walk_dirs_chain _ _ _ _ Hc), (dirs_chain_is_dir _ _ _ Hd Hc).
  by rewrite app_assoc.
Qed.

Lemma clones_in_place_chains fs C :
  clones_in_place fs C <->
  reachable fs C = true
  /\ dirs_chain fs C ["c3org"; "doc"] /\ dirs_chain fs C ["c3src"; "doc"].
Proof.
  unfold clones_in_place. simpl. rewrite <- !app_assoc. simpl. tauto.
Qed.

Lemma clones_in_place_mono fs fs' C :
  fs ⊆ fs' -> clones_in_place fs C -> clones_in_place fs' C.
Proof.
  intros Hsub (Hr & H1 & H2 & H3 & H4).
  split; [by eapply reachable_mono|].
  repeat split; by eapply lookup_weaken.
Qed.

Lemma clones_in_place_files_differ fs fs0 C :
  files_differ fs fs0 -> clones_in_place fs0 C -> clones_in_place fs C.
Proof.
  intros H (Hr & H1 & H2 & H3 & H4).
  split; [by eapply reachable_files_differ|].
  repeat split; by eapply files_differ_dir.
Qed.

End PlainLayout.

Section CloneRepos.

Implicit Types (fs : gmap (list string) inode) (C : list string).

Lemma clone_lstat_key fs C0 C top name :
  clones_in_place fs C -> top = "c3org" \/ top = "c3src" ->
  lstat_key fs C0 (Path true (C ++ [top; "doc"; name])) = Some (C ++ [top; "doc"; name])
  /\ lstat_key fs C (Path false [top; "doc"; name]) = Some (C ++ [top; "doc"; name]).
Proof.
  intros (Hr & Ho & Hs)%clones_in_place_chains Htop.
  assert (Hc : dirs_chain fs C [top; "doc"]) by (by destruct Htop as [-> | ->]).
  split.
  - exact (abs_lstat_key fs C0 C [top; "doc"] name Hr Hc).
  - exact (rel_lstat_key fs C [top; "doc"] name Hr Hc).
Qed.

Lemma clone_doc_stat fs C0 C :
  clones_in_place fs C ->
  stat fs C0 (Path true (C ++ ["c3src"; "doc"])) = Some IDir.
Proof.
  intros (Hr & Ho & Hs)%clones_in_place_chains.
  destruct (abs_walk MAXSYMLINKS _ _ _ Hr Hs) as [Hw Hd].
  unfold stat, stat_key. cbn [parts start_of anchored]. rewrite Hw. simpl.
  revert Hd. unfold is_dir_at. by destruct (node_at _ _) as [[]|].
Qed.

Lemma rename_file w src dst ks kd d :
  lstat_key (w_fs w) (w_cwd w) src = Some ks ->
  lstat_key (w_fs w) (w_cwd w) dst = Some kd ->
  w_fs w !! ks = Some (IFile d) -> ks <> kd -> plain_file (w_fs w !! kd) ->
  rename src dst w = Ok tt (set_fs (<[kd := IFile d]> (delete ks (w_fs w))) w).
Proof.
  intros Hs Hd E Hne Hp. unfold rename. rewrite Hs, Hd, E.
  rewrite bool_decide_eq_false_2 by done. by destruct Hp as [->|[d' ->]].
Qed.

Lemma symlink_to_fresh w link target k :
  lstat_key (w_fs w) (w_cwd w) link = Some k -> w_fs w !! k = None ->
  symlink_to link target w = Ok tt (set_fs (<[k := ILink target]> (w_fs w)) w).
Proof. intros Hk E. unfold symlink_to. by rewrite Hk, E. Qed.


End CloneRepos.


Section CloneReposTheorem.

Variable shell : string -> list string -> gmap (list string) inode -> proc.
Variable HOME : list string.

Lemma clone_repos_halves w :
  clone_repos shell HOME w = (clone_commands shell HOME;; link_and_move) w.
Proof.
  unfold clone_repos, clone_commands, bind.
  destruct (bookmark_org_repo shell HOME w) as [[] w1|e w1]; [|done].
  destruct (exec_command shell _ PIPE PIPE w1) as [r2 w2|e w2]; [|done].
  by destruct (exec_command shell _ PIPE PIPE w2) as [r3 w3|e w3].
Qed.


End CloneReposTheorem.


(** ** The command line *)

Section FrontEndFacts.

Variable shell : string -> list string -> gmap (list string) inode -> proc.
Variable HOME : list string.
Variable parse_options : list string -> option (option string * bool).
Variable help : string.
Variable usage_error : string.


End FrontEndFacts.


(** * Properties beyond the specification *)

(** ** Wildcards in plain terms

    What the fixed patterns of the two filters match: [*lit*] the
    strings that hold [lit], [*lit] the strings that end in it. *)

Section Wildcards.

Lemma match_tokens_star ts s :
  match_tokens (TStar :: ts) s =
  match_tokens ts s || match s with [] => false | _ :: s' => match_tokens (TStar :: ts) s' end.
Proof. by destruct s. Qed.

Lemma match_star_iff ts s :
  match_tokens (TStar :: ts) s = true <->
  exists pre post, s = pre ++ post /\ match_tokens ts post = true.
Proof.
  induction s as [|c s IH]; rewrite match_tokens_star, orb_true_iff.
  - split.
    + intros [H|H]; [|done]. by exists [], [].
    + intros (pre & post & E & H). left.
      symmetry in E. apply app_eq_nil in E as [-> ->]. done.
  - rewrite IH. split.
    + intros [H|(pre & post & -> & H)]; [by exists [], (c :: s)|].
      by exists (c :: pre), post.
    + intros ([|c' pre] & post & E & H); simpl in E.
      * left. by rewrite E.
      * injection E as -> ->. right. eauto.
Qed.

Lemma match_lits_iff (lit : list ascii) ts s :
  match_tokens (map TLit lit ++ ts) s = true <->
  exists rest, s = lit ++ rest /\ match_tokens ts rest = true.
Proof.
  revert s. induction lit as [|c lit IH]; intros s; simpl.
  - split; [by exists s|by intros (rest & -> & H)].
  - destruct s as [|d s].
    + split; [done|by intros (rest & [=] & _)].
    + rewrite andb_true_iff, IH, Ascii.eqb_eq. split.
      * intros [-> (rest & -> & H)]. eauto.
      * intros (rest & [= -> ->] & H). eauto.
Qed.

Lemma match_nil_iff s : match_tokens [] s = true <-> s = [].
Proof. by destruct s. Qed.

Lemma match_star_all s : match_tokens [TStar] s = true.
Proof.
  induction s as [|c s IH]; rewrite match_tokens_star; [done|].
  by rewrite IH, orb_true_r.
Qed.

Lemma match_infix (lit s : list ascii) :
  match_tokens (TStar :: map TLit lit ++ [TStar]) s = true <->
  exists pre post, s = pre ++ lit ++ post.
Proof.
  rewrite match_star_iff. split.
  - intros (pre & post & -> & (rest & -> & _)%match_lits_iff). eauto.
  - intros (pre & post & ->). exists pre, (lit ++ post). split; [done|].
    apply match_lits_iff. exists post. split; [done|]. apply match_star_all.
Qed.

Lemma match_suffix (lit s : list ascii) :
  match_tokens (TStar :: map TLit lit) s = true <-> lit `suffix_of` s.
Proof.
  rewrite match_star_iff. split.
  - intros (pre & post & -> & H). rewrite <- (app_nil_r (map TLit lit)) in H.
    apply match_lits_iff in H as (rest & -> & ->%match_nil_iff).
    rewrite app_nil_r. by exists pre.
  - intros [pre ->]. exists pre, lit. split; [done|].
    rewrite <- (app_nil_r (map TLit lit)). apply match_lits_iff.
    exists []. by rewrite app_nil_r.
Qed.

Lemma list_ascii_app (a b : string) :
  list_ascii_of_string (a +:+ b) = list_ascii_of_string a ++ list_ascii_of_string b.
Proof. induction a as [|c a IH]; simpl; [done|]. by rewrite IH. Qed.

Lemma string_prefix_iff (s1 s2 : string) :
  String.prefix s1 s2 = true <->
  exists post, list_ascii_of_string s2 = list_ascii_of_string s1 ++ post.
Proof.
  revert s2. induction s1 as [|a s1 IH]; intros s2; simpl.
  - destruct s2; simpl; split; eauto.
  - destruct s2 as [|b s2]; simpl.
    + split; [done|by intros (post & [=])].
    + destruct (ascii_dec a b) as [->|Hne].
      * rewrite IH. split; intros (post & E); exists post; [by rewrite E|by injection E].
      * split; [done|]. intros (post & [= -> _]). done.
Qed.

Lemma index_0_iff (sub s : string) :
  is_Some (String.index 0 sub s) <->
  exists pre post, list_ascii_of_string s = pre ++ list_ascii_of_string sub ++ post.
Proof.
  induction s as [|b s IH].
  - simpl. destruct sub as [|a sub]; simpl.
    + split; [by exists [], []|eauto].
    + split; [by intros [? [=]]|].
      intros (pre & post & E). symmetry in E.
      apply app_eq_nil in E as [_ [=]].
  - cbn [String.index].
    destruct (String.prefix sub (String b s)) eqn:Ep.
    + split; [|eauto]. intros _. apply string_prefix_iff in Ep as (post & E).
      by exists [], post.
    + assert (is_Some (match String.index 0 sub s with Some n => Some (S n) | None => None end)
              <-> is_Some (String.index 0 sub s)) as ->.
      { destruct (String.index 0 sub s); split; intros [? ?]; eauto; done. }
      rewrite IH. simpl. split.
      * intros (pre & post & E). exists (b :: pre), post. by rewrite E.
      * intros ([|c pre] & post & E); simpl in E.
        -- assert (String.prefix sub (String b s) = true); [|congruence].
           apply string_prefix_iff. exists post. done.
        -- injection E as -> E. eauto.
Qed.

Lemma str_contains_iff (sub s : string) :
  str_contains sub s = true <->
  exists pre post, list_ascii_of_string s = pre ++ list_ascii_of_string sub ++ post.
Proof.
  rewrite <- index_0_iff. unfold str_contains.
  destruct (String.index 0 sub s); split; eauto; try done.
Qed.

(** A pattern [*lit*], [lit] free of wildcards, matches what holds
    [lit]; a pattern [*lit] what ends in it. *)
Lemma fnmatch_contains (lit s : string) :
  (let p := list_ascii_of_string ("*" +:+ lit +:+ "*") in
   tokens (length p) p = TStar :: lits lit ++ [TStar]) ->
  fnmatch s ("*" +:+ lit +:+ "*") = str_contains lit s.
Proof.
  intros Htok. apply eq_true_iff_eq. unfold fnmatch. cbv zeta in Htok.
  rewrite Htok. unfold lits. by rewrite match_infix, str_contains_iff.
Qed.

Lemma fnmatch_endswith (lit s : string) :
  (let p := list_ascii_of_string ("*" +:+ lit) in
   tokens (length p) p = TStar :: lits lit) ->
  fnmatch s ("*" +:+ lit) = str_endswith lit s.
Proof.
  intros Htok. apply eq_true_iff_eq. unfold fnmatch, str_endswith. cbv zeta in Htok.
  rewrite Htok. unfold lits. by rewrite match_suffix, bool_decide_eq_true.
Qed.

End Wildcards.

(** ** The keep-sets of the two filters *)

Lemma keep_docs p pattern :
  path_matches p [pattern; "*index.rst"; "*template*"; "*draw_exa*"]
  = fnmatch (str p) pattern || str_endswith "index.rst" (str p)
    || str_contains "template" (str p) || str_contains "draw_exa" (str p).
Proof.
  unfold path_matches. cbn [existsb].
  rewrite (fnmatch_endswith "index.rst") by reflexivity.
  rewrite (fnmatch_contains "template") by reflexivity.
  rewrite (fnmatch_contains "draw_exa") by reflexivity.
  by rewrite orb_false_r, !orb_assoc.
Qed.

Lemma keep_examples p :
  path_matches p ["*gaps-per-seq*"; "*-square.py"; "*README*"]
  = str_contains "gaps-per-seq" (str p) || str_endswith "-square.py" (str p)
    || str_contains "README" (str p).
Proof.
  unfold path_matches. cbn [existsb].
  rewrite (fnmatch_contains "gaps-per-seq") by reflexivity.
  rewrite (fnmatch_endswith "-square.py") by reflexivity.
  rewrite (fnmatch_contains "README") by reflexivity.
  by rewrite orb_false_r, !orb_assoc.
Qed.

(** X8: whether a path matches depends on the set of patterns only:
    with more patterns more paths match, and two lists that hold the
    same patterns, in whatever order and however often, match the same
    paths. *)
Theorem path_matches_set (p : pypath) (ps qs : list string) :
  (forall x, x ∈ ps -> x ∈ qs) ->
  (path_matches p ps = true -> path_matches p qs = true)
  /\ ((forall x, x ∈ qs -> x ∈ ps) -> path_matches p ps = path_matches p qs).
Proof.
  assert (Hmono : forall l l' : list string, (forall x, x ∈ l -> x ∈ l') ->
            path_matches p l = true -> path_matches p l' = true).
  { intros l l' Hsub. unfold path_matches. rewrite !existsb_exists.
    intros (x & Hin & Hm). exists x. split; [|done].
    by apply list_elem_of_In, Hsub, list_elem_of_In. }
  intros Hsub. split; [by apply Hmono|]. intros Hsup.
  apply eq_true_iff_eq. split; by apply Hmono.
Qed.

(** Two patterns, and the same two in another order with one twice. *)
Lemma path_matches_set_witness :
  path_matches (parse_path "doc/b.rst") ["*a*"; "*b*"]
  = path_matches (parse_path "doc/b.rst") ["*b*"; "*a*"; "*a*"].
Proof.
  apply (proj2 (path_matches_set (parse_path "doc/b.rst") ["*a*"; "*b*"]
                  ["*b*"; "*a*"; "*a*"]
                  ltac:(intros x; rewrite !elem_of_cons, !elem_of_nil; tauto))).
  intros x. rewrite !elem_of_cons, !elem_of_nil. tauto.
Defined.

(** The text of a path ends with its last name and holds every name. *)
Lemma concat_snoc sep (l : list string) (x : string) :
  exists pre, list_ascii_of_string (String.concat sep (l ++ [x]))
              = pre ++ list_ascii_of_string x.
Proof.
  induction l as [|y l IH]; simpl.
  - by exists [].
  - destruct IH as (pre & E). destruct (l ++ [x]) eqn:El; [by destruct l|].
    rewrite !list_ascii_app, E.
    exists (list_ascii_of_string y ++ list_ascii_of_string sep ++ pre).
    by rewrite <- !app_assoc.
Qed.

Lemma concat_elem sep (l : list string) (c : string) :
  c ∈ l ->
  exists pre post, list_ascii_of_string (String.concat sep l)
                   = pre ++ list_ascii_of_string c ++ post.
Proof.
  induction l as [|y l IH]; [by intros ?%elem_of_nil|].
  intros [->|Hin]%elem_of_cons; simpl.
  - destruct l as [|z l]; [by exists [], []; rewrite app_nil_r|].
    rewrite list_ascii_app.
    by exists [], (list_ascii_of_string (sep +:+ String.concat sep (z :: l))).
  - destruct l as [|z l]; [by apply elem_of_nil in Hin|].
    destruct (IH Hin) as (pre & post & E).
    rewrite !list_ascii_app, E.
    exists (list_ascii_of_string y ++ list_ascii_of_string sep ++ pre), post.
    by rewrite <- !app_assoc.
Qed.

Lemma str_tail (p : pypath) ini name :
  parts p = ini ++ [name] ->
  exists pre, list_ascii_of_string (str p) = pre ++ list_ascii_of_string name.
Proof.
  intros E. unfold str. rewrite E.
  destruct (concat_snoc "/" ini name) as (pre & Ec).
  destruct (anchored p).
  - exists (list_ascii_of_string "/" ++ pre). by rewrite list_ascii_app, Ec, <- app_assoc.
  - destruct (ini ++ [name]) eqn:E'; [by destruct ini|]. by exists pre.
Qed.

Lemma str_contains_tail lit (name s : string) pre :
  list_ascii_of_string s = pre ++ list_ascii_of_string name ->
  str_contains lit name = true -> str_contains lit s = true.
Proof.
  intros E. rewrite !str_contains_iff. intros (a & b & E'). rewrite E, E'.
  exists (pre ++ a), b. by rewrite <- app_assoc.
Qed.

Lemma str_endswith_tail lit (name s : string) pre :
  list_ascii_of_string s = pre ++ list_ascii_of_string name ->
  str_endswith lit name = true -> str_endswith lit s = true.
Proof.
  intros E. unfold str_endswith. rewrite !bool_decide_eq_true, E.
  intros [a ->]. exists (pre ++ a). by rewrite <- app_assoc.
Qed.

Lemma str_contains_component lit (p : pypath) (c : string) :
  c ∈ parts p -> str_contains lit c = true -> str_contains lit (str p) = true.
Proof.
  intros Hin. destruct (concat_elem "/" _ _ Hin) as (pre & post & E).
  rewrite !str_contains_iff. intros (a & b & Ec). unfold str.
  destruct (anchored p).
  - rewrite list_ascii_app, E, Ec.
    exists (list_ascii_of_string "/" ++ pre ++ a), (b ++ post). by rewrite <- !app_assoc.
  - destruct (parts p) eqn:Ep; [by apply elem_of_nil in Hin|].
    rewrite E, Ec. exists (pre ++ a), (b ++ post). by rewrite <- !app_assoc.
Qed.

(** ** What the filters never do *)

(** What every round of a loop keeps, the loop keeps, however it ends. *)
Lemma for_each_inv {A} (P : world -> world -> Prop) (body : A -> M unit) (l : list A) :
  (forall w, P w w) -> (forall w1 w2 w3, P w1 w2 -> P w2 w3 -> P w1 w3) ->
  (forall x w, x ∈ l -> P w (world_of (body x w))) ->
  forall w, P w (world_of (for_each l body w)).
Proof.
  intros Hrefl Htrans. induction l as [|x l IH]; intros Hbody w; [apply Hrefl|].
  simpl. unfold bind. pose proof (Hbody x w ltac:(left)) as H1.
  destruct (body x w) as [[] w1|e w1]; [|done].
  eapply Htrans; [exact H1|]. apply IH. intros y w0 Hy. apply Hbody. by right.
Qed.

Lemma same_process_trans w1 w2 w3 :
  same_process w1 w2 -> same_process w2 w3 -> same_process w1 w3.
Proof. intros (?&?&?) (?&?&?). repeat split; congruence. Qed.

Lemma unlink_same_process p w : same_process w (world_of (unlink p w)).
Proof.
  unfold unlink. destruct (lstat_key _ _ _) as [k|]; [|done].
  by destruct (w_fs w !! k) as [[d| |t]|].
Qed.

Lemma template_is_kept p pattern :
  path_matches p [pattern; "*index.rst"; "*template*"; "*draw_exa*"] = false ->
  str_contains "template" (str p) = false.
Proof.
  rewrite keep_docs. intros H.
  apply orb_false_iff in H as [H _]. by apply orb_false_iff in H as [_ H].
Qed.

(** A round of [remove_docs] that does not skip its path unlinks it and
    does nothing else: the path does not hold [template]. *)
Lemma remove_docs_body_unlinks p pattern w :
  path_matches p [pattern; "*index.rst"; "*template*"; "*draw_exa*"]
    || is_directory w p = false ->
  (d <- is_dir p;
   if path_matches p [pattern; "*index.rst"; "*template*"; "*draw_exa*"] || d then ret tt
   else (if str_contains "template" (str p) then print (str p) else ret tt);; unlink p) w
  = unlink p w.
Proof.
  intros Hk. unfold bind, is_dir. cbn beta iota. fold (is_directory w p). rewrite Hk.
  apply orb_false_iff in Hk as [Hk _]. by rewrite (template_is_kept _ _ Hk).
Qed.

(** X9: neither filter prints anything or changes the working
    directory, in any world and however it ends: the [print] in
    [remove_docs] is never reached, since a path that holds [template]
    matches [*template*] and is skipped. *)
Theorem filters_are_quiet (pattern : string) (w : world) :
  same_process w (world_of (remove_docs pattern w))
  /\ same_process w (world_of (reduce_draw_examples w)).
Proof.
  split.
  - unfold remove_docs, bind at 1. rewrite glob_visited.
    apply for_each_inv; [done|apply same_process_trans|].
    intros p w0 _.
    destruct (path_matches p [pattern; "*index.rst"; "*template*"; "*draw_exa*"]
                || is_directory w0 p) eqn:Hk.
    + unfold bind, is_dir. cbn beta iota. fold (is_directory w0 p). by rewrite Hk.
    + rewrite remove_docs_body_unlinks by done. apply unlink_same_process.
  - unfold reduce_draw_examples, bind at 1. rewrite glob_visited.
    apply for_each_inv; [done|apply same_process_trans|].
    intros p w0 _. unfold bind, is_dir. cbn beta iota.
    destruct (_ || _); [done|]. apply unlink_same_process.
Qed.

Lemma removed_only_refl Q fs : removed_only Q fs fs.
Proof. intros k. by left. Qed.

Lemma removed_only_trans Q fs1 fs2 fs3 :
  removed_only Q fs1 fs2 -> removed_only Q fs2 fs3 -> removed_only Q fs1 fs3.
Proof.
  intros H12 H23 k. destruct (H23 k) as [E|(E & nd & End & ?)].
  - rewrite E. apply H12.
  - right. split; [done|]. destruct (H12 k) as [E'|(E' & _)]; [|congruence].
    exists nd. by rewrite <- E'.
Qed.

Lemma removed_only_weaken (Q Q' : list string -> Prop) fs fs' :
  (forall k, Q k -> Q' k) -> removed_only Q fs fs' -> removed_only Q' fs fs'.
Proof.
  intros HQ H k. destruct (H k) as [E|(E & nd & ? & ? & ?)]; [by left|].
  right. split; [done|]. exists nd. eauto.
Qed.

(** [unlink] takes away at most one entry, no directory, and one that
    bears the last name of the path. *)
Lemma unlink_removed_only p w :
  removed_only (fun k => exists d ini name, parts p = ini ++ [name] /\ k = d ++ [name])
    (w_fs w) (w_fs (world_of (unlink p w))).
Proof.
  unfold unlink, lstat_key.
  destruct (unsnoc (parts p)) as [[ini name]|] eqn:Eu; [|apply removed_only_refl].
  apply unsnoc_Some in Eu.
  destruct (walk _ _ _ _) as [d|]; [|apply removed_only_refl].
  destruct (is_dir_at (w_fs w) d); [|apply removed_only_refl].
  destruct (w_fs w !! (d ++ [name])) as [nd|] eqn:E; [|apply removed_only_refl].
  assert (nd <> IDir -> removed_only
            (fun k => exists d ini name, parts p = ini ++ [name] /\ k = d ++ [name])
            (w_fs w) (delete (d ++ [name]) (w_fs w))) as H.
  { intros Hnd k. destruct (decide (k = d ++ [name])) as [->|Hne].
    - right. rewrite lookup_delete_eq. split; [done|]. exists nd. eauto 10.
    - left. by rewrite lookup_delete_ne. }
  destruct nd; simpl; [by apply H|apply removed_only_refl|by apply H].
Qed.

(** What the walk yields lies below the root and its name matches. *)
Lemma visited_name root namepat w p :
  p ∈ visited root namepat w ->
  exists ini name, parts p = parts root ++ ini ++ [name] /\ anchored p = anchored root
                   /\ fnmatch name namepat = true.
Proof.
  unfold visited, glob. destruct (stat_key _ _ _) as [R|]; [|by intros ?%elem_of_nil].
  destruct (is_dir_at _ R); [|by intros ?%elem_of_nil].
  intros (rel & -> & Hrel)%list_elem_of_fmap.
  apply elem_of_glob_rels in Hrel as (_ & _ & Hm). unfold name_matches in Hm.
  destruct (unsnoc rel) as [[ini name]|] eqn:Eu; [|done].
  apply unsnoc_Some in Eu as ->. by exists ini, name.
Qed.

Lemma protected_doc_kept p pattern ini name :
  parts p = ini ++ [name] ->
  path_matches p [pattern; "*index.rst"; "*template*"; "*draw_exa*"] = false ->
  protected_doc name = false.
Proof.
  intros E. destruct (str_tail p ini name E) as (pre & Es).
  rewrite keep_docs. intros H. unfold protected_doc.
  apply orb_false_iff in H as [H H3]. apply orb_false_iff in H as [H H2].
  apply orb_false_iff in H as [_ H1].
  destruct (str_endswith "index.rst" name) eqn:E1.
  { by rewrite (str_endswith_tail _ _ _ _ Es E1) in H1. }
  destruct (str_contains "template" name) eqn:E2.
  { by rewrite (str_contains_tail _ _ _ _ Es E2) in H2. }
  destruct (str_contains "draw_exa" name) eqn:E3; [|done].
  by rewrite (str_contains_tail _ _ _ _ Es E3) in H3.
Qed.

Lemma protected_example_kept p ini name :
  parts p = ini ++ [name] ->
  path_matches p ["*gaps-per-seq*"; "*-square.py"; "*README*"] = false ->
  protected_example name = false.
Proof.
  intros E. destruct (str_tail p ini name E) as (pre & Es).
  rewrite keep_examples. intros H. unfold protected_example.
  apply orb_false_iff in H as [H H3]. apply orb_false_iff in H as [H1 H2].
  destruct (str_contains "gaps-per-seq" name) eqn:E1.
  { by rewrite (str_contains_tail _ _ _ _ Es E1) in H1. }
  destruct (str_endswith "-square.py" name) eqn:E2.
  { by rewrite (str_endswith_tail _ _ _ _ Es E2) in H2. }
  destruct (str_contains "README" name) eqn:E3; [|done].
  by rewrite (str_contains_tail _ _ _ _ Es E3) in H3.
Qed.

(** X10: in any tree, symbolic links or not, and however it ends,
    [reduce_draw_examples] only takes entries away: it adds and modifies
    nothing, removes no directory, and removes no entry whose own name
    holds [gaps-per-seq] or [README] or ends in [-square.py]. *)
Theorem reduce_draw_examples_removes_only (w : world) :
  removed_only
    (fun k => exists d name, k = d ++ [name] /\ protected_example name = false)
    (w_fs w) (w_fs (world_of (reduce_draw_examples w))).
Proof.
  unfold reduce_draw_examples, bind at 1. rewrite glob_visited.
  apply (for_each_inv (fun w1 w2 => removed_only _ (w_fs w1) (w_fs w2)));
    [intros; apply removed_only_refl|intros ???; apply removed_only_trans|].
  intros p w0 Hp.
  destruct (visited_name _ _ _ _ Hp) as (ini & name & Eparts & _ & Hname).
  rewrite app_assoc in Eparts.
  unfold bind, is_dir. cbn beta iota. fold (is_directory w0 p).
  destruct (path_matches p ["*gaps-per-seq*"; "*-square.py"; "*README*"]) eqn:Hk.
  { apply removed_only_refl. }
  destruct (is_directory w0 p); [apply removed_only_refl|]. cbn [orb].
  eapply removed_only_weaken; [|apply unlink_removed_only].
  intros k (d & ini' & name' & E' & ->). rewrite Eparts in E'.
  apply app_inj_tail in E' as [_ <-]. exists d, name. split; [done|].
  by eapply protected_example_kept.
Qed.

(** X11: in any tree, symbolic links or not, and however it ends,
    [remove_docs] only takes entries away: it adds and modifies nothing,
    removes no directory, and what it removes bears a name that ends in
    [.rst], does not end in [index.rst] and holds neither [template] nor
    [draw_exa], whatever pattern the caller gives. *)
Theorem remove_docs_removes_only (pattern : string) (w : world) :
  removed_only
    (fun k => exists d name, k = d ++ [name]
                /\ doc_name name = true /\ protected_doc name = false)
    (w_fs w) (w_fs (world_of (remove_docs pattern w))).
Proof.
  unfold remove_docs, bind at 1. rewrite glob_visited.
  apply (for_each_inv (fun w1 w2 => removed_only _ (w_fs w1) (w_fs w2)));
    [intros; apply removed_only_refl|intros ???; apply removed_only_trans|].
  intros p w0 Hp.
  destruct (visited_name _ _ _ _ Hp) as (ini & name & Eparts & _ & Hname).
  rewrite app_assoc in Eparts.
  destruct (path_matches p [pattern; "*index.rst"; "*template*"; "*draw_exa*"]
              || is_directory w0 p) eqn:Hk.
  - unfold bind, is_dir. cbn beta iota. fold (is_directory w0 p). rewrite Hk.
    apply removed_only_refl.
  - rewrite remove_docs_body_unlinks by done.
    eapply removed_only_weaken; [|apply unlink_removed_only].
    intros k (d & ini' & name' & E' & ->). rewrite Eparts in E'.
    apply app_inj_tail in E' as [_ <-]. exists d, name. split; [done|]. split.
    + unfold doc_name. by rewrite <- (fnmatch_endswith ".rst").
    + apply orb_false_iff in Hk as [Hk _]. by eapply protected_doc_kept.
Qed.

(** ** The filters over a tree of regular files and directories *)

(** X12: over a tree of regular files and directories,
    [reduce_draw_examples] returns, and an entry below the draw-examples
    root is gone exactly if it is no directory and its path, as text,
    neither holds [gaps-per-seq] or [README] nor ends in [-square.py]. *)
Theorem reduce_draw_examples_deletes_in_plain_terms (w : world) :
  plain_tree (WEB_DIR // "doc/doc/draw_examples") "*" w ->
  exists w',
    reduce_draw_examples w = Ok tt w'
    /\ forall p, p ∈ visited (WEB_DIR // "doc/doc/draw_examples") "*" w ->
         (entry w' p = None <->
            str_contains "gaps-per-seq" (str p) = false
            /\ str_endswith "-square.py" (str p) = false
            /\ str_contains "README" (str p) = false
            /\ is_directory w p = false).
Proof.
  intros Hplain. destruct (reduce_draw_examples_pruned w Hplain) as (w' & Hrun & _ & Hvis & _).
  exists w'. split; [done|]. intros p Hp. destruct (Hvis p Hp) as (_ & -> & _).
  rewrite keep_examples, !orb_false_iff. tauto.
Qed.

(** In the checkout, [scatter.py] goes. *)
Lemma reduce_draw_examples_deletes_in_plain_terms_witness :
  exists w',
    reduce_draw_examples scenario_world = Ok tt w'
    /\ entry w' (WEB_DIR // "doc/doc/draw_examples" // "scatter.py") = None.
Proof.
  destruct (reduce_draw_examples_deletes_in_plain_terms scenario_world
              scenario_draw_tree_plain) as (w' & Hrun & H).
  exists w'. split; [exact Hrun|]. apply H.
  - apply (visited_child (WEB_DIR // "doc/doc/draw_examples") "*" scenario_world
             "scatter.py" (IFile "scatter")); vm_compute; reflexivity.
  - vm_compute. repeat split; reflexivity.
Defined.

(** X13: over a tree of regular files and directories, [remove_docs]
    returns, and a document below the doc root is gone exactly if it is
    no directory and its path, as text, does not match the caller's
    pattern, does not end in [index.rst] and holds neither [template]
    nor [draw_exa]. *)
Theorem remove_docs_deletes_in_plain_terms (pattern : string) (w : world) :
  plain_tree (WEB_DIR // "doc/doc") "*.rst" w ->
  exists w',
    remove_docs pattern w = Ok tt w'
    /\ forall p, p ∈ visited (WEB_DIR // "doc/doc") "*.rst" w ->
         (entry w' p = None <->
            fnmatch (str p) pattern = false
            /\ str_endswith "index.rst" (str p) = false
            /\ str_contains "template" (str p) = false
            /\ str_contains "draw_exa" (str p) = false
            /\ is_directory w p = false).
Proof.
  intros Hplain. destruct (remove_docs_pruned pattern w Hplain) as (w' & Hrun & _ & Hvis & _).
  exists w'. split; [done|]. intros p Hp. destruct (Hvis p Hp) as (_ & -> & _).
  rewrite keep_docs, !orb_false_iff. tauto.
Qed.

(** In the checkout, [advanced.rst] goes and [template_foo.rst] stays. *)
Lemma remove_docs_deletes_in_plain_terms_witness :
  exists w',
    remove_docs "*tutorial*" scenario_world = Ok tt w'
    /\ entry w' (WEB_DIR // "doc/doc" // "advanced.rst") = None
    /\ entry w' (WEB_DIR // "doc/doc" // "template_foo.rst") <> None.
Proof.
  destruct (remove_docs_deletes_in_plain_terms "*tutorial*" scenario_world
              scenario_doc_tree_plain) as (w' & Hrun & H).
  exists w'. split; [exact Hrun|]. split.
  - apply H.
    + apply (visited_child (WEB_DIR // "doc/doc") "*.rst" scenario_world
               "advanced.rst" (IFile "advanced")); vm_compute; reflexivity.
    + vm_compute. repeat split; reflexivity.
  - intros E. apply H in E.
    + destruct E as (_ & _ & E & _). vm_compute in E. discriminate.
    + apply (visited_child (WEB_DIR // "doc/doc") "*.rst" scenario_world
               "template_foo.rst" (IFile "template")); vm_compute; reflexivity.
Defined.

Lemma visited_doc_path w p :
  p ∈ visited (WEB_DIR // "doc/doc") "*.rst" w ->
  exists rest, str p = "c3org/doc/doc/" +:+ rest.
Proof.
  intros (ini & name & Eparts & Eanch & _)%visited_name.
  change (WEB_DIR // "doc/doc") with (Path false ["c3org"; "doc"; "doc"]) in *.
  cbn [parts anchored] in *. unfold str. rewrite Eanch, Eparts.
  destruct (ini ++ [name]) as [|x rel] eqn:E; [by destruct ini|].
  by exists (String.concat "/" (x :: rel)).
Qed.

(** A pattern that starts with a literal character matches no text that
    starts with another. *)
Lemma literal_head_mismatch (c d : ascii) (tail s : string) :
  c <> "*"%char -> c <> "?"%char -> c <> "["%char -> c <> d ->
  fnmatch (String d s) (String c tail) = false.
Proof.
  intros H1 H2 H3 H4. unfold fnmatch. cbn [list_ascii_of_string length tokens].
  rewrite (proj2 (Ascii.eqb_neq _ _) H1), (proj2 (Ascii.eqb_neq _ _) H2),
    (proj2 (Ascii.eqb_neq _ _) H3).
  cbn [match_tokens]. by rewrite (proj2 (Ascii.eqb_neq _ _) H4).
Qed.

(** X14: [remove_docs] matches the caller's pattern against the whole
    path as the walk renders it, which starts with [c3org/doc/doc/], not
    against the file name: a pattern whose first character is a literal
    other than [c] (no [*], [?] or [[]) matches no document at all. *)
Theorem remove_docs_matches_whole_path (pattern : string) (w : world) (p : pypath) :
  p ∈ visited (WEB_DIR // "doc/doc") "*.rst" w ->
  (exists rest, str p = "c3org/doc/doc/" +:+ rest)
  /\ (forall c tail, pattern = String c tail ->
        c <> "*"%char -> c <> "?"%char -> c <> "["%char -> c <> "c"%char ->
        fnmatch (str p) pattern = false).
Proof.
  intros Hp. destruct (visited_doc_path w p Hp) as (rest & E). split; [eauto|].
  intros c tail -> H1 H2 H3 H4. rewrite E. by apply literal_head_mismatch.
Qed.

(** The pattern [advanced*] does not match [advanced.rst] in the
    checkout. *)
Lemma remove_docs_matches_whole_path_witness :
  fnmatch (str (WEB_DIR // "doc/doc" // "advanced.rst")) "advanced*" = false.
Proof.
  apply (proj2 (remove_docs_matches_whole_path "advanced*" scenario_world
                  (WEB_DIR // "doc/doc" // "advanced.rst")
                  (visited_child (WEB_DIR // "doc/doc") "*.rst" scenario_world
                     "advanced.rst" (IFile "advanced") eq_refl eq_refl))
           "a"%char "dvanced*" eq_refl);
    discriminate.
Defined.

(** X15: over a tree of regular files and directories, [remove_docs]
    keeps, whatever the caller's pattern, every document whose path has
    a component that holds [template] or [draw_exa]: all of the
    drawing examples, which are [reduce_draw_examples]'s to prune. *)
Theorem remove_docs_keeps_protected_directories
    (pattern : string) (w : world) (p : pypath) (c : string) :
  plain_tree (WEB_DIR // "doc/doc") "*.rst" w ->
  p ∈ visited (WEB_DIR // "doc/doc") "*.rst" w ->
  c ∈ parts p ->
  str_contains "template" c || str_contains "draw_exa" c = true ->
  exists w',
    remove_docs pattern w = Ok tt w' /\ entry w' p = entry w p /\ entry w p <> None.
Proof.
  intros Hplain Hp Hc Hprot.
  destruct (remove_docs_pruned pattern w Hplain) as (w' & Hrun & _ & Hvis & _).
  destruct (Hvis p Hp) as (Hsome & Hiff & Hkeep).
  exists w'. split; [done|]. split; [|done]. apply Hkeep. intros [Hm _]%Hiff.
  rewrite keep_docs in Hm. apply orb_false_iff in Hm as [Hm H3].
  apply orb_false_iff in Hm as [_ H2].
  apply orb_true_iff in Hprot as [H|H];
    apply (str_contains_component _ p c Hc) in H; congruence.
Qed.

(** [draw_examples/README.rst] in the checkout. *)
Lemma remove_docs_keeps_protected_directories_witness :
  exists w',
    remove_docs "*tutorial*" scenario_world = Ok tt w'
    /\ entry w' (WEB_DIR // "doc/doc/draw_examples" // "README.rst")
       = entry scenario_world (WEB_DIR // "doc/doc/draw_examples" // "README.rst")
    /\ entry scenario_world (WEB_DIR // "doc/doc/draw_examples" // "README.rst") <> None.
Proof.
  apply (remove_docs_keeps_protected_directories "*tutorial*" scenario_world
           (WEB_DIR // "doc/doc/draw_examples" // "README.rst") "draw_examples"
           scenario_doc_tree_plain).
  - apply list_elem_of_In. vm_compute. auto 10.
  - apply list_elem_of_In. vm_compute. auto 10.
  - vm_compute. reflexivity.
Defined.

(** ** A second run of a filter *)

Lemma for_each_skips {A} (body : A -> M unit) (l : list A) w :
  (forall x, x ∈ l -> body x w = Ok tt w) -> for_each l body w = Ok tt w.
Proof.
  induction l as [|x l IH]; intros H; [done|].
  simpl. unfold bind. rewrite (H x) by left. apply IH. intros y Hy. apply H. by right.
Qed.

Lemma real_dirs_before (fs fs0 : gmap (list string) inode) (R rel : list string) :
  files_removed fs fs0 -> real_dirs fs R rel = true -> real_dirs fs0 R rel = true.
Proof.
  intros H. revert R. induction rel as [|d rel IH]; intros R; [done|]. simpl.
  destruct rel as [|d' rel]; [done|].
  destruct (fs !! (R ++ [d])) as [[| |]|] eqn:E; try done.
  destruct (H (R ++ [d])) as [E'|[E' _]]; [|congruence].
  rewrite <- E', E. apply IH.
Qed.

(** What a filter does to the files of a tree of regular files and
    directories, key by key, and that a second run finds nothing left to
    do. *)
Lemma filter_keys keepers body root namepat w R :
  (forall p w, path_matches p keepers || is_directory w p = true -> body p w = Ok tt w) ->
  (forall p w wu, path_matches p keepers || is_directory w p = false ->
     unlink p w = Ok tt wu ->
     exists w', body p w = Ok tt w' /\ w_fs w' = w_fs wu /\ w_cwd w' = w_cwd w) ->
  plain_tree root namepat w ->
  stat_key (w_fs w) (w_cwd w) root = Some R -> is_dir_at (w_fs w) R = true ->
  exists w',
    (paths <- glob root namepat; for_each paths body) w = Ok tt w'
    /\ files_removed (w_fs w') (w_fs w)
    /\ (forall k, w_fs w' !! k <> w_fs w !! k ->
          exists rel, k = R ++ rel /\ rel ∈ glob_rels (w_fs w) R namepat)
    /\ (paths <- glob root namepat; for_each paths body) w' = Ok tt w'.
Proof.
  intros Hskip Hunlink Hplain ER EdR.
  assert (Hkeep : forall p w, path_matches p keepers || is_directory w p = true ->
            exists w', body p w = Ok tt w' /\ w_fs w' = w_fs w /\ w_cwd w' = w_cwd w).
  { intros p w0 Hk. exists w0. by rewrite Hskip. }
  set (L := glob_rels (w_fs w) R namepat).
  assert (Hvis : visited root namepat w = map (descend root) L).
  { unfold visited, glob. by rewrite ER, EdR. }
  assert (Hroot : walk_dir MAXSYMLINKS (w_fs w) (start_of (w_cwd w) root) (parts root)
                  = Some R).
  { unfold walk_dir. unfold stat_key in ER. by rewrite ER, EdR. }
  assert (Hentry : forall rel, rel ∈ L -> plain_entry (w_fs w) R rel).
  { intros rel Hin.
    destruct (proj1 (elem_of_glob_rels _ _ _ _) Hin) as ([nd End] & Hreal & _).
    pose proof (entry_key _ _ _ _ Hroot _ rel (files_removed_refl _) Hreal) as Ek.
    split; [done|]. exists nd. split; [done|].
    assert (E : entry w (descend root rel) = Some nd).
    { unfold entry, lstat. by rewrite Ek. }
    rewrite <- E. apply Hplain. rewrite Hvis. apply list_elem_of_fmap. eauto. }
  destruct (prune_loop (fun p => path_matches p keepers) body Hkeep Hunlink
              (w_fs w) (w_cwd w) root R Hroot L (NoDup_glob_rels _ _ _) Hentry
              w eq_refl (files_removed_refl _) (fun _ _ => eq_refl))
    as (w' & Hrun & Hcwd & Hrm & Hin & Hout).
  exists w'. split; [|split; [done|split]].
  - unfold bind at 1. by rewrite glob_visited, Hvis.
  - intros k Hk. destruct (decide (k ∈ map (app R) L)) as [Hyes|Hno].
    + apply list_elem_of_fmap in Hyes as (rel & -> & Hrel). eauto.
    + destruct Hk. apply Hout. intros rel Hrel ->. apply Hno.
      apply list_elem_of_fmap. eauto.
  - destruct (root_walk (w_fs w) (w_cwd w) root R Hroot _ Hrm) as [Hw' HR'].
    unfold bind at 1, glob at 1. unfold stat_key. rewrite Hcwd, Hw', HR'.
    apply for_each_skips. intros p (rel & -> & Hrel)%list_elem_of_fmap.
    apply elem_of_glob_rels in Hrel as ([nd End] & Hreal' & Hname).
    pose proof (real_dirs_before _ _ _ _ Hrm Hreal') as Hreal.
    assert (End0 : w_fs w !! (R ++ rel) = Some nd).
    { destruct (Hrm (R ++ rel)) as [E|[E _]]; congruence. }
    assert (HL : rel ∈ L).
    { apply elem_of_glob_rels. split; [by eexists|]. by split. }
    apply Hskip. pose proof (Hin rel HL) as E. rewrite End in E.
    destruct (path_matches (descend root rel) keepers); [done|]. simpl in *.
    destruct (is_dir_at (w_fs w) (R ++ rel)) eqn:Ed; [|done].
    destruct (Hentry rel HL) as (_ & nd0 & End0' & Hlink).
    rewrite End0 in End0'. injection End0' as <-.
    unfold is_directory. rewrite Hcwd.
    rewrite (entry_stat (w_fs w) (w_cwd w) root R Hroot _ rel nd Hrm Hreal End Hlink).
    revert Ed. unfold is_dir_at, node_at.
    destruct (R ++ rel) eqn:E'; [|by rewrite End0; destruct nd].
    apply app_eq_nil in E' as [_ ->]. done.
Qed.

Lemma unlink_Ok_world p w wu : unlink p w = Ok tt wu ->
  exists k, wu = set_fs (delete k (w_fs w)) w.
Proof.
  unfold unlink. destruct (lstat_key _ _ _) as [k|]; [|done].
  destruct (w_fs w !! k) as [[d| |t]|]; try done; intros [= <-]; eauto.
Qed.

Lemma remove_docs_keys pattern w R :
  plain_tree (WEB_DIR // "doc/doc") "*.rst" w ->
  stat_key (w_fs w) (w_cwd w) (WEB_DIR // "doc/doc") = Some R ->
  is_dir_at (w_fs w) R = true ->
  exists w',
    remove_docs pattern w = Ok tt w'
    /\ files_removed (w_fs w') (w_fs w)
    /\ (forall k, w_fs w' !! k <> w_fs w !! k ->
          exists rel, k = R ++ rel /\ rel ∈ glob_rels (w_fs w) R "*.rst")
    /\ remove_docs pattern w' = Ok tt w'.
Proof.
  apply filter_keys with (keepers := [pattern; "*index.rst"; "*template*"; "*draw_exa*"]).
  - intros p w0 Hk. unfold bind, is_dir. cbn beta iota.
    fold (is_directory w0 p). by rewrite Hk.
  - intros p w0 wu Hk Hu. rewrite remove_docs_body_unlinks by done.
    exists wu. split; [done|]. split; [done|].
    by apply unlink_Ok_world in Hu as (k & ->).
Qed.

Lemma reduce_draw_examples_keys w R :
  plain_tree (WEB_DIR // "doc/doc/draw_examples") "*" w ->
  stat_key (w_fs w) (w_cwd w) (WEB_DIR // "doc/doc/draw_examples") = Some R ->
  is_dir_at (w_fs w) R = true ->
  exists w',
    reduce_draw_examples w = Ok tt w'
    /\ files_removed (w_fs w') (w_fs w)
    /\ (forall k, w_fs w' !! k <> w_fs w !! k ->
          exists rel, k = R ++ rel /\ rel ∈ glob_rels (w_fs w) R "*")
    /\ reduce_draw_examples w' = Ok tt w'.
Proof.
  apply filter_keys with (keepers := ["*gaps-per-seq*"; "*-square.py"; "*README*"]).
  - intros p w0 Hk. unfold bind, is_dir. cbn beta iota.
    fold (is_directory w0 p). by rewrite Hk.
  - intros p w0 wu Hk Hu. unfold bind, is_dir. cbn beta iota.
    fold (is_directory w0 p). rewrite Hk.
    exists wu. split; [done|]. split; [done|].
    by apply unlink_Ok_world in Hu as (k & ->).
Qed.

(** Without a directory at the root there is nothing to walk. *)
Lemma no_root_no_walk root namepat w :
  is_directory w root = false -> glob root namepat w = Ok [] w.
Proof.
  unfold is_directory, stat, glob, is_dir_at.
  destruct (stat_key _ _ _) as [R|]; [|done]. simpl.
  by destruct (node_at (w_fs w) R) as [[]|].
Qed.

Lemma is_directory_root root w :
  is_directory w root = true ->
  exists R, stat_key (w_fs w) (w_cwd w) root = Some R /\ is_dir_at (w_fs w) R = true.
Proof.
  unfold is_directory, stat, is_dir_at.
  destruct (stat_key _ _ _) as [R|]; [|done]. simpl. intros H. exists R.
  by destruct (node_at (w_fs w) R) as [[]|].
Qed.

Lemma remove_docs_no_root pattern w :
  is_directory w (WEB_DIR // "doc/doc") = false -> remove_docs pattern w = Ok tt w.
Proof. intros H. unfold remove_docs, bind at 1. by rewrite no_root_no_walk. Qed.

Lemma reduce_draw_examples_no_root w :
  is_directory w (WEB_DIR // "doc/doc/draw_examples") = false ->
  reduce_draw_examples w = Ok tt w.
Proof. intros H. unfold reduce_draw_examples, bind at 1. by rewrite no_root_no_walk. Qed.

Lemma glob_rels_nonempty fs R namepat rel : rel ∈ glob_rels fs R namepat -> rel <> [].
Proof. intros (_ & H & _)%elem_of_glob_rels ->. done. Qed.

(** X16: over a tree of regular files and directories each filter
    returns, and run again on what it left it returns again and changes
    nothing. *)
Theorem file_filters_idempotent (pattern : string) (w : world) :
  (plain_tree (WEB_DIR // "doc/doc") "*.rst" w ->
   exists w', remove_docs pattern w = Ok tt w' /\ remove_docs pattern w' = Ok tt w')
  /\ (plain_tree (WEB_DIR // "doc/doc/draw_examples") "*" w ->
      exists w', reduce_draw_examples w = Ok tt w' /\ reduce_draw_examples w' = Ok tt w').
Proof.
  split; intros Hplain.
  - destruct (is_directory w (WEB_DIR // "doc/doc")) eqn:Ed.
    + apply is_directory_root in Ed as (R & ER & EdR).
      destruct (remove_docs_keys pattern w R Hplain ER EdR) as (w' & H1 & _ & _ & H2).
      eauto.
    + exists w. by rewrite remove_docs_no_root.
  - destruct (is_directory w (WEB_DIR // "doc/doc/draw_examples")) eqn:Ed.
    + apply is_directory_root in Ed as (R & ER & EdR).
      destruct (reduce_draw_examples_keys w R Hplain ER EdR) as (w' & H1 & _ & _ & H2).
      eauto.
    + exists w. by rewrite reduce_draw_examples_no_root.
Qed.

(** Both filters, twice over the checkout. *)
Lemma file_filters_idempotent_witness :
  (exists w', remove_docs "*tutorial*" scenario_world = Ok tt w'
              /\ remove_docs "*tutorial*" w' = Ok tt w')
  /\ (exists w', reduce_draw_examples scenario_world = Ok tt w'
                 /\ reduce_draw_examples w' = Ok tt w').
Proof.
  split.
  - exact (proj1 (file_filters_idempotent "*tutorial*" scenario_world)
             scenario_doc_tree_plain).
  - exact (proj2 (file_filters_idempotent "*tutorial*" scenario_world)
             scenario_draw_tree_plain).
Defined.

(** X17: over a tree of regular files and directories, whatever a
    filter changes lies strictly below the directory its root resolves
    to, symbolic links followed: with [c3org/doc/doc] a link into the
    source clone, that is where the files go. *)
Theorem file_filters_delete_below_root (pattern : string) (w : world) (R : list string) :
  (plain_tree (WEB_DIR // "doc/doc") "*.rst" w ->
   stat_key (w_fs w) (w_cwd w) (WEB_DIR // "doc/doc") = Some R ->
   forall k, w_fs (world_of (remove_docs pattern w)) !! k <> w_fs w !! k ->
     exists rel, rel <> [] /\ k = R ++ rel)
  /\ (plain_tree (WEB_DIR // "doc/doc/draw_examples") "*" w ->
      stat_key (w_fs w) (w_cwd w) (WEB_DIR // "doc/doc/draw_examples") = Some R ->
      forall k, w_fs (world_of (reduce_draw_examples w)) !! k <> w_fs w !! k ->
        exists rel, rel <> [] /\ k = R ++ rel).
Proof.
  split; intros Hplain ER k.
  - destruct (is_dir_at (w_fs w) R) eqn:EdR.
    + destruct (remove_docs_keys pattern w R Hplain ER EdR) as (w' & -> & _ & Hk & _).
      intros (rel & -> & Hrel%glob_rels_nonempty)%Hk. eauto.
    + unfold remove_docs, bind at 1, glob. by rewrite ER, EdR.
  - destruct (is_dir_at (w_fs w) R) eqn:EdR.
    + destruct (reduce_draw_examples_keys w R Hplain ER EdR) as (w' & -> & _ & Hk & _).
      intros (rel & -> & Hrel%glob_rels_nonempty)%Hk. eauto.
    + unfold reduce_draw_examples, bind at 1, glob. by rewrite ER, EdR.
Qed.

(** In the checkout the doc root [c3org/doc/doc] leads to [/w/c3src/doc]:
    [advanced.rst] and [scatter.py] go from the source clone. *)
Lemma file_filters_delete_below_root_witness :
  (exists rel, rel <> []
     /\ ["w"; "c3src"; "doc"; "advanced.rst"] = ["w"; "c3src"; "doc"] ++ rel)
  /\ (exists rel, rel <> []
        /\ ["w"; "c3src"; "doc"; "draw_examples"; "scatter.py"]
           = ["w"; "c3src"; "doc"; "draw_examples"] ++ rel).
Proof.
  split.
  - apply (proj1 (file_filters_delete_below_root "*tutorial*" scenario_world
                    ["w"; "c3src"; "doc"]) scenario_doc_tree_plain).
    + vm_compute. reflexivity.
    + vm_compute. discriminate.
  - apply (proj2 (file_filters_delete_below_root "*tutorial*" scenario_world
                    ["w"; "c3src"; "doc"; "draw_examples"]) scenario_draw_tree_plain).
    + vm_compute. reflexivity.
    + vm_compute. discriminate.
Defined.

(** X18: where its root does not lead to a directory (nothing there, a
    dangling link, a regular file), a filter returns at once, raises
    nothing and leaves the world as it is. *)
Theorem file_filters_missing_root (pattern : string) (w : world) :
  (is_directory w (WEB_DIR // "doc/doc") = false -> remove_docs pattern w = Ok tt w)
  /\ (is_directory w (WEB_DIR // "doc/doc/draw_examples") = false ->
      reduce_draw_examples w = Ok tt w).
Proof. split; [apply remove_docs_no_root|apply reduce_draw_examples_no_root]. Qed.

(** No clone in [demo_world]. *)
Lemma file_filters_missing_root_witness :
  remove_docs "*tutorial*" demo_world = Ok tt demo_world
  /\ reduce_draw_examples demo_world = Ok tt demo_world.
Proof.
  split.
  - apply (proj1 (file_filters_missing_root "*tutorial*" demo_world)).
    vm_compute. reflexivity.
  - apply (proj2 (file_filters_missing_root "*tutorial*" demo_world)).
    vm_compute. reflexivity.
Defined.

(** ** The [cwd] context manager *)




(** ** More on [remove_old_repos] *)

Lemma rmtree_below name w :
  forall k, w_fs (world_of (rmtree (Path false [name]) w)) !! k = w_fs w !! k
    \/ (w_fs (world_of (rmtree (Path false [name]) w)) !! k = None
        /\ (w_cwd w ++ [name]) `prefix_of` k).
Proof.
  intros k. unfold rmtree, lstat_key. cbn [parts unsnoc start_of anchored].
  rewrite walk_nil. destruct (is_dir_at (w_fs w) (w_cwd w)); [|by left].
  destruct (w_fs w !! (w_cwd w ++ [name])) as [[d| |t]|]; try by left.
  cbn [world_of w_fs set_fs]. rewrite not_below_lookup.
  destruct (decide (_ `prefix_of` k)); [by right|by left].
Qed.

Lemma rmtree_same_process p w : same_process w (world_of (rmtree p w)).
Proof.
  unfold rmtree. destruct (lstat_key _ _ _) as [k|]; [|done].
  by destruct (w_fs w !! k) as [[d| |t]|].
Qed.

(** X3: in any world and however it ends, [remove_old_repos] leaves the
    working directory and the two standard streams alone, adds and
    modifies no file, and whatever it takes away lies at or below
    [c3org] or [c3src] in the working directory. *)
Theorem remove_old_repos_frame (w : world) :
  let w' := world_of (remove_old_repos w) in
  w_cwd w' = w_cwd w /\ w_stdout w' = w_stdout w /\ w_stderr w' = w_stderr w
  /\ forall k, w_fs w' !! k = w_fs w !! k
       \/ (w_fs w' !! k = None
           /\ ((w_cwd w ++ ["c3org"]) `prefix_of` k \/ (w_cwd w ++ ["c3src"]) `prefix_of` k)).
Proof.
  cut (old_repos_frame w (world_of (remove_old_repos w))).
  { intros ((?&?&?)&?). by repeat split. }
  unfold remove_old_repos. apply (for_each_inv old_repos_frame).
  - intros w0. split; [done|]. by left.
  - intros w1 w2 w3 [Hp12 H12] [Hp23 H23].
    split; [by eapply same_process_trans|]. intros k.
    destruct Hp12 as (Hc & _). rewrite Hc in H23.
    destruct (H23 k) as [E|[E Hpre]]; [rewrite E; apply H12|by right].
  - intros p w0 Hp. unfold bind, path_exists. cbn beta iota.
    destruct (stat (w_fs w0) (w_cwd w0) p); [|split; [done|by left]].
    split; [apply rmtree_same_process|]. intros k.
    apply elem_of_cons in Hp as [->|Hp]; [|apply elem_of_cons in Hp as [->|Hp]].
    + destruct (rmtree_below "c3org" w0 k) as [E|[E Hpre]]; [by left|right; eauto].
    + destruct (rmtree_below "c3src" w0 k) as [E|[E Hpre]]; [by left|right; eauto].
    + by apply elem_of_nil in Hp.
Qed.

Lemma entry_in_cwd w name nd :
  entry w (Path false [name]) = Some nd ->
  is_dir_at (w_fs w) (w_cwd w) = true /\ w_fs w !! (w_cwd w ++ [name]) = Some nd.
Proof.
  unfold entry, lstat, lstat_key. cbn [parts unsnoc start_of anchored].
  rewrite walk_nil. by destruct (is_dir_at (w_fs w) (w_cwd w)).
Qed.

Lemma remove_old_repos_eq (w : world) :
  remove_old_repos w =
  match (match stat (w_fs w) (w_cwd w) WEB_DIR with
         | Some _ => rmtree WEB_DIR w
         | None => Ok tt w
         end) with
  | Ok _ w1 =>
      match (match stat (w_fs w1) (w_cwd w1) SRC_DIR with
             | Some _ => rmtree SRC_DIR w1
             | None => Ok tt w1
             end) with
      | Ok _ w2 => Ok tt w2
      | Raise e w2 => Raise e w2
      end
  | Raise e w1 => Raise e w1
  end.
Proof.
  unfold remove_old_repos. cbn [for_each]. unfold bind, path_exists.
  destruct (stat (w_fs w) (w_cwd w) WEB_DIR).
  - destruct (rmtree WEB_DIR w) as [[] w1|e w1]; [|done].
    destruct (stat (w_fs w1) (w_cwd w1) SRC_DIR); [|done].
    by destruct (rmtree SRC_DIR w1) as [[] w2|e w2].
  - cbn [ret]. destruct (stat (w_fs w) (w_cwd w) SRC_DIR); [|done].
    by destruct (rmtree SRC_DIR w) as [[] w2|e w2].
Qed.

Lemma rmtree_in_cwd name w nd :
  is_dir_at (w_fs w) (w_cwd w) = true ->
  w_fs w !! (w_cwd w ++ [name]) = Some nd ->
  rmtree (Path false [name]) w =
  match nd with
  | IFile _ => Raise NotADirectoryError w
  | IDir => Ok tt (set_fs (not_below (w_cwd w ++ [name]) (w_fs w)) w)
  | ILink _ => Raise OSError w
  end.
Proof.
  intros Hc E. unfold rmtree, lstat_key. cbn [parts unsnoc start_of anchored].
  by rewrite walk_nil, Hc, E.
Qed.

(** X4: [remove_old_repos] removes directories only.  Where [c3org] is
    a regular file it raises [NotADirectoryError]; where it is a
    symbolic link that leads somewhere it raises [OSError]; either way
    nothing has been removed and [c3src] has not been looked at.  Where
    [c3org] is a dangling link it counts as absent and stays. *)
Theorem remove_old_repos_refuses (w : world) :
  (forall d, entry w WEB_DIR = Some (IFile d) ->
     remove_old_repos w = Raise NotADirectoryError w)
  /\ (forall t, entry w WEB_DIR = Some (ILink t) ->
        (stat (w_fs w) (w_cwd w) WEB_DIR <> None -> remove_old_repos w = Raise OSError w)
        /\ (stat (w_fs w) (w_cwd w) WEB_DIR = None ->
            w_fs (world_of (remove_old_repos w)) !! (w_cwd w ++ ["c3org"])
              = Some (ILink t))).
Proof.
  rewrite remove_old_repos_eq.
  change WEB_DIR with (Path false ["c3org"]). change SRC_DIR with (Path false ["c3src"]).
  split; [|intros t [Hc E]%entry_in_cwd; split].
  - intros d [Hc E]%entry_in_cwd. rewrite (rmtree_in_cwd _ _ _ Hc E).
    unfold stat, stat_key. cbn [parts start_of anchored]. rewrite walk_eq, E. simpl.
    by rewrite node_at_snoc, E.
  - intros Hs. rewrite (rmtree_in_cwd _ _ _ Hc E).
    by destruct (stat (w_fs w) (w_cwd w) (Path false ["c3org"])).
  - intros ->.
    destruct (stat (w_fs w) (w_cwd w) (Path false ["c3src"])); [|done].
    destruct (rmtree_below "c3src" w (w_cwd w ++ ["c3org"])) as [E'|[_ Hpre]].
    + destruct (rmtree _ w) as [[] w1|e w1]; simpl in *; congruence.
    + apply prefix_app_inv in Hpre. by destruct Hpre as [? [=]].
Qed.

(** [c3org] a file, a link to [/home], a link to nothing. *)
Lemma remove_old_repos_refuses_witness :
  remove_old_repos (stale_world (IFile "notes"))
    = Raise NotADirectoryError (stale_world (IFile "notes"))
  /\ remove_old_repos (stale_world (ILink (parse_path "/home")))
     = Raise OSError (stale_world (ILink (parse_path "/home")))
  /\ w_fs (world_of (remove_old_repos (stale_world (ILink (parse_path "/gone")))))
       !! ["w"; "c3org"]
     = Some (ILink (parse_path "/gone")).
Proof.
  split; [|split].
  - apply (proj1 (remove_old_repos_refuses (stale_world (IFile "notes"))) "notes").
    vm_compute. reflexivity.
  - apply (proj1 (proj2 (remove_old_repos_refuses (stale_world (ILink (parse_path "/home"))))
                    (parse_path "/home") ltac:(vm_compute; reflexivity))).
    vm_compute. discriminate.
  - apply (proj2 (proj2 (remove_old_repos_refuses (stale_world (ILink (parse_path "/gone"))))
                    (parse_path "/gone") ltac:(vm_compute; reflexivity))).
    vm_compute. reflexivity.
Defined.

(** ** Commands in sequence *)

Section Commands.

Variable shell : string -> list string -> gmap (list string) inode -> proc.
Variable HOME : list string.

(** A call of [exec_command] with the error stream piped, either way. *)
Lemma exec_command_piped cmnd so w :
  let p := shell cmnd (w_cwd w) (w_fs w) in
  exec_command shell cmnd so PIPE w =
    if returncode p =? 0 then Ok None (after_piped p w)
    else Raise (SystemExit (returncode p))
           (World (fs_after p) (w_cwd w) (w_stdout w +:+ string_of_bytes (out_bytes p))
              (w_stderr w +:+ ("FAILED: " +:+ cmnd +:+ chr NL +:+ bytes_repr (err_bytes p)))).
Proof.
  intros p. unfold exec_command, bind, popen_communicate. cbn beta iota. fold p.
  by destruct (returncode p =? 0).
Qed.

(** X2: what a command that exits with status 0 wrote to its standard
    error is dropped when the error stream is piped, as it is by
    default: the script's own standard error is as it was, and the world
    differs only by the files the command left and its standard output.
    With the stream inherited ([stderr=None]) it is on the script's
    standard error. *)
Theorem exec_command_drops_stderr (cmnd : string) (stdout : stream) (w : world) :
  let p := shell cmnd (w_cwd w) (w_fs w) in
  returncode p = 0 ->
  exec_command shell cmnd stdout PIPE w = Ok None (after_piped p w)
  /\ w_stderr (after_piped p w) = w_stderr w
  /\ exec_command shell cmnd stdout Inherited w
     = Ok None (World (fs_after p) (w_cwd w)
                  (w_stdout w +:+ string_of_bytes (out_bytes p))
                  (w_stderr w +:+ string_of_bytes (err_bytes p))).
Proof.
  intros p Hrc. split; [|split; [done|]].
  - rewrite exec_command_piped. fold p. by rewrite Hrc.
  - unfold exec_command, bind, popen_communicate. cbn beta iota. fold p. by rewrite Hrc.
Qed.

Lemma build_docs_eq w :
  build_docs shell w =
  match chdir WEB_DIR w with
  | Ok _ w1 =>
      match exec_command shell "hg up develop" PIPE PIPE w1 with
      | Ok _ w2 =>
          match exec_command shell "ls" PIPE PIPE w2 with
          | Ok _ w3 =>
              match chdir (parse_path "doc") w3 with
              | Ok _ w4 =>
                  match exec_command shell "make github" PIPE PIPE w4 with
                  | Ok _ w5 => Ok tt w5
                  | Raise e w5 => Raise e w5
                  end
              | Raise e w4 => Raise e w4
              end
          | Raise e w3 => Raise e w3
          end
      | Raise e w2 => Raise e w2
      end
  | Raise e w1 => Raise e w1
  end.
Proof.
  unfold build_docs, bind.
  destruct (chdir WEB_DIR w) as [[] w1|]; [|done].
  destruct (exec_command shell "hg up develop" PIPE PIPE w1) as [? w2|]; [|done].
  destruct (exec_command shell "ls" PIPE PIPE w2) as [? w3|]; [|done].
  destruct (chdir (parse_path "doc") w3) as [[] w4|]; [|done].
  by destruct (exec_command shell "make github" PIPE PIPE w4).
Qed.

Lemma chdir_to p w k :
  stat_key (w_fs w) (w_cwd w) p = Some k -> is_dir_at (w_fs w) k = true ->
  chdir p w = Ok tt (set_cwd k w).
Proof. intros Hk Hd. unfold chdir. by rewrite Hk, Hd. Qed.

(** X19: when every step succeeds, [build_docs] has run [hg up develop]
    and [ls] in the site clone and [make github] in its [doc] directory,
    each on the files its predecessor left; it returns in that [doc]
    directory with the files [make] left, the three commands' standard
    output on the script's, in that order, and nothing on its standard
    error. *)
Theorem build_docs_runs_in_order (w : world) (k1 k2 : list string) :
  let p1 := shell "hg up develop" k1 (w_fs w) in
  let p2 := shell "ls" k1 (fs_after p1) in
  let p3 := shell "make github" k2 (fs_after p2) in
  stat_key (w_fs w) (w_cwd w) WEB_DIR = Some k1 -> is_dir_at (w_fs w) k1 = true ->
  returncode p1 = 0 -> returncode p2 = 0 ->
  stat_key (fs_after p2) k1 (parse_path "doc") = Some k2 ->
  is_dir_at (fs_after p2) k2 = true ->
  returncode p3 = 0 ->
  build_docs shell w =
    Ok tt (World (fs_after p3) k2
             (((w_stdout w +:+ string_of_bytes (out_bytes p1))
               +:+ string_of_bytes (out_bytes p2))
              +:+ string_of_bytes (out_bytes p3))
             (w_stderr w)).
Proof.
  intros p1 p2 p3. destruct w as [fs c so se]. cbn [w_fs w_cwd w_stdout w_stderr] in *.
  intros Hk1 Hd1 Hr1 Hr2 Hk2 Hd2 Hr3. rewrite build_docs_eq.
  rewrite (chdir_to _ _ k1) by done. unfold set_cwd. cbn [w_fs w_cwd w_stdout w_stderr].
  rewrite exec_command_piped. cbn [w_fs w_cwd]. fold p1. rewrite Hr1. cbn [Z.eqb].
  unfold after_piped at 1. cbn [w_fs w_cwd w_stdout w_stderr].
  rewrite exec_command_piped. cbn [w_fs w_cwd]. fold p2. rewrite Hr2. cbn [Z.eqb].
  unfold after_piped at 1. cbn [w_fs w_cwd w_stdout w_stderr].
  rewrite (chdir_to _ _ k2) by done. unfold set_cwd. cbn [w_fs w_cwd w_stdout w_stderr].
  rewrite exec_command_piped. cbn [w_fs w_cwd]. fold p3. by rewrite Hr3.
Qed.


(** X21: [build_just] with no pattern and no flag does exactly what
    [build_all] does, and an empty pattern is as good as none: every
    document is built. *)
Theorem build_just_without_options (simplify_draw : bool) (w : world) :
  build_just shell HOME None false w = build_all shell HOME w
  /\ build_just shell HOME (Some EmptyString) simplify_draw w
     = build_just shell HOME None simplify_draw w.
Proof.
  split; [|reflexivity].
  unfold build_just, build_all, bind.
  destruct (remove_old_repos w) as [[] w1|]; [|done].
  by destruct (clone_repos shell HOME w1) as [[] w2|].
Qed.

End Commands.

(** A command that warns and succeeds. *)
Lemma exec_command_drops_stderr_witness :
  exec_command chatty_shell "make github" PIPE PIPE demo_world
    = Ok None (World demo_fs ["w"] "ok" EmptyString)
  /\ exec_command chatty_shell "make github" PIPE Inherited demo_world
     = Ok None (World demo_fs ["w"] "ok" "warning").
Proof.
  destruct (exec_command_drops_stderr chatty_shell "make github" PIPE demo_world eq_refl)
    as (H1 & _ & H2).
  split; [exact H1|exact H2].
Defined.

(** [build_docs] over the checkout, every command writing [ok]. *)
Lemma build_docs_runs_in_order_witness :
  build_docs chatty_shell scenario_world
    = Ok tt (World scenario_fs ["w"; "c3org"; "doc"] "okokok" EmptyString).
Proof.
  apply (build_docs_runs_in_order chatty_shell scenario_world
           ["w"; "c3org"] ["w"; "c3org"; "doc"]); vm_compute; reflexivity.
Defined.


(** ** Where [clone_repos] fails *)

Section LinkAndMoveFailures.

Implicit Types (fs : gmap (list string) inode) (C : list string).

Ltac link_and_move_paths :=
  unfold link_and_move;
  change (WEB_DIR // "doc" // "doc") with (Path false ["c3org"; "doc"; "doc"]);
  change (WEB_DIR // "doc" // "set_working_directory.py")
    with (Path false ["c3org"; "doc"; "set_working_directory.py"]);
  change (SRC_DIR // "doc" // "set_working_directory.py")
    with (Path false ["c3src"; "doc"; "set_working_directory.py"]);
  change (WEB_DIR // "doc" // "cogent3.bib") with (Path false ["c3org"; "doc"; "cogent3.bib"]);
  change (SRC_DIR // "doc" // "cogent3.bib") with (Path false ["c3src"; "doc"; "cogent3.bib"]);
  change (SRC_DIR // "doc") with (Path false ["c3src"; "doc"]);
  unfold bind, absolute, path_exists; cbn [anchored parts w_cwd w_fs].

Lemma rename_missing w src dst ks kd :
  lstat_key (w_fs w) (w_cwd w) src = Some ks ->
  lstat_key (w_fs w) (w_cwd w) dst = Some kd ->
  w_fs w !! ks = None ->
  rename src dst w = Raise FileNotFoundError w.
Proof. intros Hs Hd E. unfold rename. by rewrite Hs, Hd, E. Qed.

Lemma link_and_move_link_taken w2 nd :
  clones_in_place (w_fs w2) (w_cwd w2) ->
  w_fs w2 !! (w_cwd w2 ++ ["c3org"; "doc"; "doc"]) = Some nd ->
  link_and_move w2 = Raise FileExistsError w2.
Proof.
  destruct w2 as [fs2 C so se]. cbn [w_fs w_cwd]. intros Hin Hl.
  link_and_move_paths. rewrite (clone_doc_stat _ _ _ Hin). cbn [py_assert ret].
  unfold symlink_to. cbn [w_fs w_cwd].
  by rewrite (proj1 (clone_lstat_key _ C C "c3org" "doc" Hin (or_introl eq_refl))), Hl.
Qed.

Lemma link_and_move_script_missing w2 :
  clones_in_place (w_fs w2) (w_cwd w2) ->
  w_fs w2 !! (w_cwd w2 ++ ["c3org"; "doc"; "doc"]) = None ->
  w_fs w2 !! (w_cwd w2 ++ ["c3src"; "doc"; "set_working_directory.py"]) = None ->
  link_and_move w2 =
    Raise FileNotFoundError
      (set_fs (<[w_cwd w2 ++ ["c3org"; "doc"; "doc"]
                 := ILink (Path true (w_cwd w2 ++ ["c3src"; "doc"]))]> (w_fs w2)) w2).
Proof.
  destruct w2 as [fs2 C so se]. unfold set_fs; cbn [w_fs w_cwd w_stdout w_stderr].
  intros Hin Hl Hs1.
  set (fs3 := <[C ++ ["c3org"; "doc"; "doc"] := ILink (Path true (C ++ ["c3src"; "doc"]))]>
                fs2).
  assert (Hin3 : clones_in_place fs3 C).
  { eapply clones_in_place_mono; [|done]. by apply insert_subseteq. }
  assert (Hs1' : fs3 !! (C ++ ["c3src"; "doc"; "set_working_directory.py"]) = None).
  { unfold fs3. by rewrite lookup_insert_ne by (intros [=]%app_inv_head). }
  link_and_move_paths. rewrite (clone_doc_stat _ _ _ Hin). cbn [py_assert ret].
  rewrite (symlink_to_fresh (World fs2 C so se)
             (Path true (C ++ ["c3org"; "doc"; "doc"])) (Path true (C ++ ["c3src"; "doc"]))
             (C ++ ["c3org"; "doc"; "doc"])
             (proj1 (clone_lstat_key _ C C "c3org" "doc" Hin (or_introl eq_refl))) Hl).
  unfold set_fs; cbn [w_fs w_cwd w_stdout w_stderr]. fold fs3.
  by rewrite (rename_missing (World fs3 C so se)
             (Path true (C ++ ["c3src"; "doc"; "set_working_directory.py"]))
             (Path true (C ++ ["c3org"; "doc"; "set_working_directory.py"]))
             (C ++ ["c3src"; "doc"; "set_working_directory.py"])
             (C ++ ["c3org"; "doc"; "set_working_directory.py"])
             (proj1 (clone_lstat_key _ C C "c3src" "set_working_directory.py" Hin3
                       (or_intror eq_refl)))
             (proj1 (clone_lstat_key _ C C "c3org" "set_working_directory.py" Hin3
                       (or_introl eq_refl)))
             Hs1').
Qed.

Lemma link_and_move_bib_missing w2 d1 :
  clones_in_place (w_fs w2) (w_cwd w2) ->
  w_fs w2 !! (w_cwd w2 ++ ["c3org"; "doc"; "doc"]) = None ->
  w_fs w2 !! (w_cwd w2 ++ ["c3src"; "doc"; "set_working_directory.py"]) = Some (IFile d1) ->
  plain_file (w_fs w2 !! (w_cwd w2 ++ ["c3org"; "doc"; "set_working_directory.py"])) ->
  w_fs w2 !! (w_cwd w2 ++ ["c3src"; "doc"; "cogent3.bib"]) = None ->
  link_and_move w2 =
    Raise FileNotFoundError
      (set_fs (<[w_cwd w2 ++ ["c3org"; "doc"; "set_working_directory.py"] := IFile d1]>
                (delete (w_cwd w2 ++ ["c3src"; "doc"; "set_working_directory.py"])
                   (<[w_cwd w2 ++ ["c3org"; "doc"; "doc"]
                      := ILink (Path true (w_cwd w2 ++ ["c3src"; "doc"]))]> (w_fs w2))))
         w2).
Proof.
  destruct w2 as [fs2 C so se]. unfold set_fs; cbn [w_fs w_cwd w_stdout w_stderr].
  intros Hin Hl Hs1 Hp1 Hs2.
  set (fs3 := <[C ++ ["c3org"; "doc"; "doc"] := ILink (Path true (C ++ ["c3src"; "doc"]))]>
                fs2).
  set (fs4 := <[C ++ ["c3org"; "doc"; "set_working_directory.py"] := IFile d1]>
                (delete (C ++ ["c3src"; "doc"; "set_working_directory.py"]) fs3)).
  assert (Hin3 : clones_in_place fs3 C).
  { eapply clones_in_place_mono; [|done]. by apply insert_subseteq. }
  assert (Hs1' : fs3 !! (C ++ ["c3src"; "doc"; "set_working_directory.py"]) = Some (IFile d1)).
  { unfold fs3. by rewrite lookup_insert_ne by (intros [=]%app_inv_head). }
  assert (Hp1' : plain_file (fs3 !! (C ++ ["c3org"; "doc"; "set_working_directory.py"]))).
  { unfold fs3. by rewrite lookup_insert_ne by (intros [=]%app_inv_head). }
  assert (Hd34 : files_differ fs4 fs3).
  { eapply files_differ_trans; [apply files_differ_insert|by eapply files_differ_delete].
    by rewrite lookup_delete_ne by (intros [=]%app_inv_head). }
  assert (Hin4 : clones_in_place fs4 C) by (by eapply clones_in_place_files_differ).
  assert (Hs2' : fs4 !! (C ++ ["c3src"; "doc"; "cogent3.bib"]) = None).
  { unfold fs4. rewrite lookup_insert_ne by (intros [=]%app_inv_head).
    rewrite lookup_delete_ne by (intros [=]%app_inv_head).
    unfold fs3. by rewrite lookup_insert_ne by (intros [=]%app_inv_head). }
  link_and_move_paths. rewrite (clone_doc_stat _ _ _ Hin). cbn [py_assert ret].
  rewrite (symlink_to_fresh (World fs2 C so se)
             (Path true (C ++ ["c3org"; "doc"; "doc"])) (Path true (C ++ ["c3src"; "doc"]))
             (C ++ ["c3org"; "doc"; "doc"])
             (proj1 (clone_lstat_key _ C C "c3org" "doc" Hin (or_introl eq_refl))) Hl).
  unfold set_fs; cbn [w_fs w_cwd w_stdout w_stderr]. fold fs3.
  rewrite (rename_file (World fs3 C so se)
             (Path true (C ++ ["c3src"; "doc"; "set_working_directory.py"]))
             (Path true (C ++ ["c3org"; "doc"; "set_working_directory.py"]))
             (C ++ ["c3src"; "doc"; "set_working_directory.py"])
             (C ++ ["c3org"; "doc"; "set_working_directory.py"]) d1
             (proj1 (clone_lstat_key _ C C "c3src" "set_working_directory.py" Hin3
                       (or_intror eq_refl)))
             (proj1 (clone_lstat_key _ C C "c3org" "set_working_directory.py" Hin3
                       (or_introl eq_refl)))
             Hs1' ltac:(intros [=]%app_inv_head) Hp1').
  unfold set_fs; cbn [w_fs w_cwd w_stdout w_stderr]. fold fs4.
  by rewrite (rename_missing (World fs4 C so se)
             (Path true (C ++ ["c3src"; "doc"; "cogent3.bib"]))
             (Path true (C ++ ["c3org"; "doc"; "cogent3.bib"]))
             (C ++ ["c3src"; "doc"; "cogent3.bib"])
             (C ++ ["c3org"; "doc"; "cogent3.bib"])
             (proj1 (clone_lstat_key _ C C "c3src" "cogent3.bib" Hin4 (or_intror eq_refl)))
             (proj1 (clone_lstat_key _ C C "c3org" "cogent3.bib" Hin4 (or_introl eq_refl)))
             Hs2').
Qed.

End LinkAndMoveFailures.

Section CloneFailures.

Variable shell : string -> list string -> gmap (list string) inode -> proc.
Variable HOME : list string.

Lemma clone_repos_eq w :
  clone_repos shell HOME w =
  match bookmark_org_repo shell HOME w with
  | Ok _ w1 =>
      match exec_command shell ("hg clone " +:+ str (SRC_REPO HOME) +:+ " " +:+ str SRC_DIR)
              PIPE PIPE w1 with
      | Ok _ w2 =>
          match exec_command shell
                  ("hg clone " +:+ str (WEB_REPO HOME) +:+ " " +:+ str WEB_DIR)
                  PIPE PIPE w2 with
          | Ok _ w3 => link_and_move w3
          | Raise e w3 => Raise e w3
          end
      | Raise e w2 => Raise e w2
      end
  | Raise e w1 => Raise e w1
  end.
Proof.
  unfold clone_repos, bind.
  destruct (bookmark_org_repo shell HOME w) as [[] w1|e w1]; [|done].
  destruct (exec_command shell _ PIPE PIPE w1) as [r2 w2|e w2]; [|done].
  by destruct (exec_command shell _ PIPE PIPE w2) as [r3 w3|e w3].
Qed.

(** X5: once the bookmark is set, a clone command that exits with a
    nonzero status ends [clone_repos] with [SystemExit] of that status:
    if it is the first, the second clone is not made; either way nothing
    is linked or moved and nothing is cleaned up, the files being as the
    failed command left them. *)
Theorem clone_repos_stops_at_failed_clone (w w1 : world) :
  bookmark_org_repo shell HOME w = Ok tt w1 ->
  let p1 := shell ("hg clone " +:+ str (SRC_REPO HOME) +:+ " " +:+ str SRC_DIR)
              (w_cwd w1) (w_fs w1) in
  let p2 := shell ("hg clone " +:+ str (WEB_REPO HOME) +:+ " " +:+ str WEB_DIR)
              (w_cwd w1) (fs_after p1) in
  (returncode p1 <> 0 ->
   exists w', clone_repos shell HOME w = Raise (SystemExit (returncode p1)) w'
              /\ w_fs w' = fs_after p1 /\ w_cwd w' = w_cwd w1)
  /\ (returncode p1 = 0 -> returncode p2 <> 0 ->
      exists w', clone_repos shell HOME w = Raise (SystemExit (returncode p2)) w'
                 /\ w_fs w' = fs_after p2 /\ w_cwd w' = w_cwd w1).
Proof.
  intros Hb p1 p2. rewrite clone_repos_eq, Hb.
  rewrite exec_command_piped. fold p1. split.
  - intros Hr1. destruct (Z.eqb_spec (returncode p1) 0) as [?|_]; [done|]. eauto.
  - intros Hr1 Hr2. rewrite Hr1. cbn [Z.eqb].
    rewrite exec_command_piped. unfold after_piped at 1 2 3 4. cbn [w_fs w_cwd]. fold p2.
    destruct (Z.eqb_spec (returncode p2) 0) as [?|_]; [done|]. eauto.
Qed.

(** X6: if, once the three commands have run, something is already at
    [c3org/doc/doc] (the site repository has a [doc/doc] of its own),
    [clone_repos] raises [FileExistsError] and has linked and moved
    nothing. *)
Theorem clone_repos_link_name_taken (w w2 : world) (nd : inode) :
  clone_commands shell HOME w = Ok tt w2 ->
  clones_in_place (w_fs w2) (w_cwd w2) ->
  w_fs w2 !! (w_cwd w2 ++ ["c3org"; "doc"; "doc"]) = Some nd ->
  clone_repos shell HOME w = Raise FileExistsError w2.
Proof.
  intros Hcmds Hin Hl. rewrite clone_repos_halves. unfold bind at 1. rewrite Hcmds.
  by eapply link_and_move_link_taken.
Qed.

(** X7: [clone_repos] does not roll back.  With the clones in place
    and the link name free: if the source clone has no
    [set_working_directory.py], [FileNotFoundError] is raised and the
    link just made stays; if it has one but no [cogent3.bib],
    [FileNotFoundError] is raised with the link made and the script
    already moved. *)
Theorem clone_repos_does_not_roll_back (w w2 : world) :
  clone_commands shell HOME w = Ok tt w2 ->
  let C := w_cwd w2 in
  let linked := <[C ++ ["c3org"; "doc"; "doc"] := ILink (Path true (C ++ ["c3src"; "doc"]))]>
                  (w_fs w2) in
  clones_in_place (w_fs w2) C ->
  w_fs w2 !! (C ++ ["c3org"; "doc"; "doc"]) = None ->
  (w_fs w2 !! (C ++ ["c3src"; "doc"; "set_working_directory.py"]) = None ->
   clone_repos shell HOME w = Raise FileNotFoundError (set_fs linked w2))
  /\ (forall d1,
        w_fs w2 !! (C ++ ["c3src"; "doc"; "set_working_directory.py"]) = Some (IFile d1) ->
        plain_file (w_fs w2 !! (C ++ ["c3org"; "doc"; "set_working_directory.py"])) ->
        w_fs w2 !! (C ++ ["c3src"; "doc"; "cogent3.bib"]) = None ->
        clone_repos shell HOME w =
          Raise FileNotFoundError
            (set_fs (<[C ++ ["c3org"; "doc"; "set_working_directory.py"] := IFile d1]>
                       (delete (C ++ ["c3src"; "doc"; "set_working_directory.py"]) linked))
               w2)).
Proof.
  intros Hcmds C linked Hin Hl. split.
  - intros Hs1. rewrite clone_repos_halves. unfold bind at 1. rewrite Hcmds.
    by apply link_and_move_script_missing.
  - intros d1 Hs1 Hp1 Hs2. rewrite clone_repos_halves. unfold bind at 1. rewrite Hcmds.
    by apply link_and_move_bib_missing.
Qed.

End CloneFailures.

(** The first clone failing, then the second. *)
Lemma clone_repos_stops_at_failed_clone_witness :
  (exists w',
     clone_repos (failing_shell "hg clone /home/u/repos/Cogent3 c3src") demo_home demo_world
       = Raise (SystemExit 1) w'
     /\ w_fs w' = demo_fs /\ w_cwd w' = ["w"])
  /\ (exists w',
        clone_repos (failing_shell "hg clone /home/u/repos/cogent3org c3org") demo_home
          demo_world
          = Raise (SystemExit 1) w'
        /\ w_fs w' = demo_fs /\ w_cwd w' = ["w"]).
Proof.
  split.
  - apply (proj1 (clone_repos_stops_at_failed_clone
                    (failing_shell "hg clone /home/u/repos/Cogent3 c3src") demo_home
                    demo_world demo_world ltac:(vm_compute; reflexivity))).
    vm_compute. discriminate.
  - apply (proj2 (clone_repos_stops_at_failed_clone
                    (failing_shell "hg clone /home/u/repos/cogent3org c3org") demo_home
                    demo_world demo_world ltac:(vm_compute; reflexivity))).
    + vm_compute. reflexivity.
    + vm_compute. discriminate.
Defined.

(** Both clones in place and a directory where the link is to go. *)
Lemma clone_repos_link_name_taken_witness :
  clone_repos chatty_shell demo_home
    (checkout_world [(["w"; "c3org"; "doc"; "doc"], IDir)])
  = Raise FileExistsError
      (world_of (clone_commands chatty_shell demo_home
                   (checkout_world [(["w"; "c3org"; "doc"; "doc"], IDir)]))).
Proof.
  apply (clone_repos_link_name_taken chatty_shell demo_home
           (checkout_world [(["w"; "c3org"; "doc"; "doc"], IDir)])
           (world_of (clone_commands chatty_shell demo_home
                        (checkout_world [(["w"; "c3org"; "doc"; "doc"], IDir)]))) IDir).
  - apply returned_Ok. vm_compute. reflexivity.
  - vm_compute. repeat split; reflexivity.
  - vm_compute. reflexivity.
Defined.

(** Both clones in place, first with neither file in the source clone,
    then with the script only. *)
Lemma clone_repos_does_not_roll_back_witness :
  (exists w',
     clone_repos chatty_shell demo_home (checkout_world []) = Raise FileNotFoundError w'
     /\ w_fs w' !! ["w"; "c3org"; "doc"; "doc"]
        = Some (ILink (Path true ["w"; "c3src"; "doc"])))
  /\ (exists w',
        clone_repos chatty_shell demo_home
          (checkout_world
             [(["w"; "c3src"; "doc"; "set_working_directory.py"], IFile "import os")])
          = Raise FileNotFoundError w'
        /\ w_fs w' !! ["w"; "c3org"; "doc"; "set_working_directory.py"]
           = Some (IFile "import os")
        /\ w_fs w' !! ["w"; "c3src"; "doc"; "set_working_directory.py"] = None).
Proof.
  split.
  - eexists. split.
    + apply (proj1 (clone_repos_does_not_roll_back chatty_shell demo_home (checkout_world [])
                      (world_of (clone_commands chatty_shell demo_home (checkout_world [])))
                      ltac:(apply returned_Ok; vm_compute; reflexivity)
                      ltac:(vm_compute; repeat split; reflexivity)
                      ltac:(vm_compute; reflexivity))).
      vm_compute. reflexivity.
    + vm_compute. reflexivity.
  - eexists. split.
    + apply (proj2 (clone_repos_does_not_roll_back chatty_shell demo_home
                      (checkout_world
                         [(["w"; "c3src"; "doc"; "set_working_directory.py"],
                           IFile "import os")])
                      (world_of (clone_commands chatty_shell demo_home
                         (checkout_world
                            [(["w"; "c3src"; "doc"; "set_working_directory.py"],
                              IFile "import os")])))
                      ltac:(apply returned_Ok; vm_compute; reflexivity)
                      ltac:(vm_compute; repeat split; reflexivity)
                      ltac:(vm_compute; reflexivity)) "import os").
      * vm_compute. reflexivity.
      * left. vm_compute. reflexivity.
      * vm_compute. reflexivity.
    + vm_compute. split; reflexivity.
Defined.
